(** * The branch drop-down of the toolbar (app/src/ui/toolbar/branch-dropdown.tsx)

    A shallow embedding of the [BranchDropdown] React component: the
    derivation of what the toolbar button shows ([render]), the gate on
    open requests ([onDropDownStateChanged]), the drag-hover handler
    ([onMouseEnter]) and the CI-status popover protocol ([togglePopover],
    [openPopover], [closePopover], [renderPopover]).

    The component is a class whose methods read [this.props] and
    [this.state] and talk to the outside world only by calling the
    dispatcher, the drag-and-drop manager and the callback it was given.
    A method is therefore a function from the props it reads to the list
    of calls it makes, in order. *)

From Stdlib Require Import Bool List String Ascii ZArith QArith Qround DecimalString Lia.
From Stdlib Require Import SpecFloat DecimalPos DecimalZ.
Import ListNotations.

Local Open Scope list_scope.
Local Open Scope string_scope.

(** ** Numbers

    A JavaScript number is an IEEE 754 double. The progress value and
    the arithmetic on it (line 156: [> 0], line 157: [* 100] and
    [Math.round]) are modelled on the Standard Library's specification
    of binary floating point, at the parameters of binary64. *)

Definition prec : Z := 53.

Definition emax : Z := 1024.

Definition number : Type := spec_float.

(** The double nearest to an integer, and to the quotient of two
    integers (each below 2^53 in magnitude): what a decimal literal such
    as [0.42] denotes. *)
Definition ofZ (n : Z) : number := binary_normalize prec emax n 0 false.

Definition ofRatio (n d : Z) : number := SFdiv prec emax (ofZ n) (ofZ d).

(** [x * y] *)
Definition mul (x y : number) : number := SFmul prec emax x y.

(** [x > 0]; false for NaN. *)
Definition gt0 (x : number) : bool := SFltb (S754_zero false) x.

(** The exact value of a finite double; 0 for the others. *)
Definition toQ (x : number) : Q :=
  match x with
  | S754_finite s m e =>
      let sm := if s then Zneg m else Zpos m in
      if (0 <=? e)%Z then inject_Z (sm * 2 ^ e) else sm # Z.to_pos (2 ^ (- e))
  | _ => 0
  end.

(** What [Math.round] returns: NaN and the infinities unchanged, else
    an integer (a negative zero counts as the integer 0, and prints as
    it). *)
Inductive Integral : Type :=
| IntegralNaN
| IntegralInfinity (negative : bool)
| IntegralValue (n : Z).

(** [Math.round]: the integer nearest to the exact value, halves going
    up. *)
Definition Math_round (x : number) : Integral :=
  match x with
  | S754_nan => IntegralNaN
  | S754_infinity s => IntegralInfinity s
  | S754_zero _ => IntegralValue 0
  | S754_finite _ _ _ => IntegralValue (Qfloor (toQ x + (1 # 2)))
  end.

(** The decimal numeral of an integer. *)
Definition showInt (n : Z) : string := NilZero.string_of_int (Z.to_int n).

(** *** A number inside a template string

    An integer up to 2^53 in magnitude prints as its decimal numeral.
    Beyond, not every integer is a double, and what is printed is the
    decimal with the fewest significant digits that still denotes the
    same double, followed by zeros, or in exponent notation from 10^21
    on. *)

Definition roundsTo (x : number) (c : Z) : bool := SFeqb (ofZ c) x.

Definition decimalDigits (n : Z) : Z := Z.of_nat (String.length (showInt n)).

(** The decimal with [k] significant digits that denotes the same
    double as [n], if there is one: the nearer of the two around [n],
    the one with the even last digit when they are equally near. *)
Definition shortestAt (n : Z) (k : Z) : option Z :=
  let p := (decimalDigits n - k)%Z in
  if (p <? 0)%Z then None
  else
    let unit := (10 ^ p)%Z in
    let lo := (n / unit * unit)%Z in
    let hi := (lo + unit)%Z in
    let x := ofZ n in
    match roundsTo x lo, roundsTo x hi with
    | true, true =>
        match (n - lo ?= hi - n)%Z with
        | Lt => Some lo
        | Gt => Some hi
        | Eq => Some (if Z.even (n / unit) then lo else hi)
        end
    | true, false => Some lo
    | false, true => Some hi
    | false, false => None
    end.

Fixpoint shortestFrom (n : Z) (k : Z) (fuel : nat) : Z :=
  match fuel with
  | O => n
  | S fuel' =>
      match shortestAt n k with
      | Some c => c
      | None => shortestFrom n (k + 1)%Z fuel'
      end
  end.

(** Seventeen significant digits always suffice for a double. *)
Definition shortestDecimal (n : Z) : Z := shortestFrom n 1 17.

Fixpoint stripZeros (s : string) : string :=
  match s with
  | EmptyString => EmptyString
  | String c rest =>
      match stripZeros rest with
      | EmptyString => if Ascii.eqb c "0" then EmptyString else String c EmptyString
      | rest' => String c rest'
      end
  end.

(** [1.2345e+22] for 12345000000000000000000. *)
Definition exponentForm (c : Z) : string :=
  let digits := showInt c in
  let exponent := (Z.of_nat (String.length digits) - 1)%Z in
  match stripZeros digits with
  | EmptyString => "0"
  | String d EmptyString => String d EmptyString ++ "e+" ++ showInt exponent
  | String d rest => String d ("." ++ rest) ++ "e+" ++ showInt exponent
  end.

Definition integerToString (n : Z) : string :=
  if (Z.abs n <=? 2 ^ 53)%Z then showInt n
  else
    let c := shortestDecimal (Z.abs n) in
    let sign := if (n <? 0)%Z then "-" else "" in
    if (c <? 10 ^ 21)%Z then sign ++ showInt c else sign ++ exponentForm c.

(** [`${friendlyProgress}`] *)
Definition numberToString (r : Integral) : string :=
  match r with
  | IntegralNaN => "NaN"
  | IntegralInfinity false => "Infinity"
  | IntegralInfinity true => "-Infinity"
  | IntegralValue n => integerToString n
  end.

Arguments gt0 : simpl never.
Arguments mul : simpl never.
Arguments ofZ : simpl never.
Arguments ofRatio : simpl never.
Arguments Math_round : simpl never.
Arguments numberToString : simpl never.

(** ** Data model *)

(** The icons the component chooses between (octicons.generated and
    octicons). *)
Inductive OcticonSymbolType : Type :=
| gitBranch
| gitPullRequest
| gitCommit
| syncClockwise.

(** The fields of a branch that the component reads. *)
Record Branch : Type := {
  name : string;
  upstreamWithoutRemote : option string;
  isDesktopForkRemoteBranch : bool
}.

(** models/tip: the tagged union over [TipState]. The type admits four
    kinds; [OtherTip] stands for a run-time value whose [kind] is none of
    them, which is what the last [else] of [render] is there for. *)
Inductive Tip : Type :=
| Unknown
| Unborn (ref : string)
| Detached (currentSha : string)
| Valid (branch : Branch)
| OtherTip (kind : string).

Record ICheckoutProgress : Type := {
  targetBranch : string;
  value : number
}.

(** lib/app-state: the conflict states. Only the rebase one is looked
    into, for its [targetBranch]. *)
Inductive ConflictState : Type :=
| MergeConflictState
| RebaseConflictState (targetBranch : string)
| OtherConflictState.

(** Modelled from the spec: [isRebaseConflictState] of lib/app-state is
    not part of this file; it tells whether the conflict is of the rebase
    kind. *)
Definition isRebaseConflictState (c : ConflictState) : bool :=
  match c with
  | RebaseConflictState _ => true
  | _ => false
  end.

(** [conflictState.targetBranch], which the code reads only once the
    state is known to be a rebase one. *)
Definition conflictTargetBranch (c : ConflictState) : string :=
  match c with
  | RebaseConflictState target => target
  | _ => ""
  end.

Record IBranchesState : Type := {
  tip : Tip;
  allBranches : list Branch
}.

Record IChangesState : Type := {
  conflictState : option ConflictState
}.

Record IRepositoryState : Type := {
  branchesState : IBranchesState;
  checkoutProgress : option ICheckoutProgress;
  changesState : IChangesState
}.

Record GitHubRepository : Type := {
  fullName : string
}.

Record PullRequest : Type := {
  pullRequestNumber : Z;
  baseGitHubRepository : GitHubRepository
}.

Inductive DropdownState : Type :=
| open
| closed.

(** The props the methods below read. The dispatcher and the
    [onDropDownStateChanged] callback are the targets of the calls the
    methods make, see [Call]. *)
Record IBranchDropdownProps : Type := {
  repositoryState : IRepositoryState;
  isOpen : bool;
  currentPullRequest : option PullRequest;
  shouldNudge : bool;
  showCIStatusPopover : bool
}.

Record IBranchDropdownState : Type := {
  badgeBottom : Q
}.

(** ** What [render] returns *)

Record PullRequestBadgeProps : Type := {
  badgeNumber : Z;
  badgeRepository : GitHubRepository
}.

Record CICheckRunPopoverProps : Type := {
  prNumber : Z;
  popoverRepository : GitHubRepository;
  branchName : string;
  popoverBadgeBottom : Q
}.

Record ToolbarDropdownProps : Type := {
  className : string;
  icon : OcticonSymbolType;
  iconClassName : option string;
  title : string;
  description : string;
  tooltip : option string;
  dropdownState : DropdownState;
  disabled : bool;
  showDisclosureArrow : bool;
  progressValue : option number;
  buttonClassName : string;
  children : option PullRequestBadgeProps
}.

Record Rendering : Type := {
  toolbarDropdown : ToolbarDropdownProps;
  popover : option CICheckRunPopoverProps
}.

(** The three ways [render] ends: with elements, with [null], or in the
    call of [assertNever]. *)
Inductive RenderResult (A : Type) : Type :=
| Rendered (a : A)
| RenderNull
| UnreachableState (message : string).

Arguments Rendered {A} a.
Arguments RenderNull {A}.
Arguments UnreachableState {A} message.

Definition bindRender {A B : Type} (r : RenderResult A) (k : A -> RenderResult B)
  : RenderResult B :=
  match r with
  | Rendered a => k a
  | RenderNull => RenderNull
  | UnreachableState m => UnreachableState m
  end.

(** Modelled from the spec: [assertNever] of lib/fatal-error is not part
    of this file; reaching it is the explicit unreachable-state failure,
    carrying the message it was given. *)
Definition assertNever {A : Type} (message : string) : RenderResult A :=
  UnreachableState message.

(** The local variables of [render] (lines 117-123 and 150). *)
Record Locals : Type := {
  l_icon : OcticonSymbolType;
  l_iconClassName : option string;
  l_title : string;
  l_description : string;
  l_canOpen : bool;
  l_disabled : bool;
  l_tooltip : string;
  l_progressValue : option number
}.

(** ** Strings *)

(** [s.substr(0, 7)] *)
Definition substr07 (s : string) : string := substring 0 7 s.

(** [classNames('nudge-arrow', { 'nudge-arrow-up': shouldNudge })] *)
Definition nudgeClassNames (shouldNudge : bool) : string :=
  if shouldNudge then "nudge-arrow nudge-arrow-up" else "nudge-arrow".

(** ** [render], lines 109-171: the display *)

Definition isSome {A : Type} (o : option A) : bool :=
  match o with
  | Some _ => true
  | None => false
  end.

(** Lines 129-148: the tip decides title and tooltip, and may change
    icon, description and [canOpen]. [l] holds the locals as lines
    117-127 leave them. *)
Definition classifyTip (branches : IBranchesState) (l : Locals) : RenderResult Locals :=
  match tip branches with
  | Unknown => RenderNull
  | Unborn ref =>
      Rendered {| l_icon := l_icon l;
                  l_iconClassName := l_iconClassName l;
                  l_title := ref;
                  l_description := l_description l;
                  l_canOpen :=
                    existsb (fun b => negb (isDesktopForkRemoteBranch b))
                            (allBranches branches);
                  l_disabled := l_disabled l;
                  l_tooltip := "Current branch is " ++ ref;
                  l_progressValue := l_progressValue l |}
  | Detached currentSha =>
      Rendered {| l_icon := gitCommit;
                  l_iconClassName := l_iconClassName l;
                  l_title := "On " ++ substr07 currentSha;
                  l_description := "Detached HEAD";
                  l_canOpen := l_canOpen l;
                  l_disabled := l_disabled l;
                  l_tooltip := "Currently on a detached HEAD";
                  l_progressValue := l_progressValue l |}
  | Valid branch =>
      Rendered {| l_icon := l_icon l;
                  l_iconClassName := l_iconClassName l;
                  l_title := name branch;
                  l_description := l_description l;
                  l_canOpen := l_canOpen l;
                  l_disabled := l_disabled l;
                  l_tooltip := "Current branch is " ++ name branch;
                  l_progressValue := l_progressValue l |}
  | OtherTip tipKind => assertNever ("Unknown tip state: " ++ tipKind)
  end.

(** Lines 150-171: a checkout in progress, else a rebase conflict, takes
    over the display. *)
Definition applyOperation (DARWIN : bool) (repo : IRepositoryState) (l : Locals) : Locals :=
  match checkoutProgress repo with
  | Some progress =>
      let description :=
        if DARWIN then "Switching to Branch" else "Switching to branch" in
      let description :=
        if gt0 (value progress)
        then
          let friendlyProgress := Math_round (mul (value progress) (ofZ 100)) in
          description ++ " (" ++ numberToString friendlyProgress ++ "%)"
        else description in
      {| l_icon := syncClockwise;
         l_iconClassName := Some "spin";
         l_title := targetBranch progress;
         l_description := description;
         l_canOpen := false;
         l_disabled := l_disabled l;
         l_tooltip := l_tooltip l;
         l_progressValue := Some (value progress) |}
  | None =>
      match conflictState (changesState repo) with
      | Some conflict =>
          if isRebaseConflictState conflict
          then
            {| l_icon := gitBranch;
               l_iconClassName := l_iconClassName l;
               l_title := conflictTargetBranch conflict;
               l_description := "Rebasing branch";
               l_canOpen := false;
               l_disabled := true;
               l_tooltip := l_tooltip l;
               l_progressValue := l_progressValue l |}
          else l
      | None => l
      end
  end.

(** Lines 110-171. [DARWIN] is the build constant [__DARWIN__]. *)
Definition display (DARWIN : bool) (props : IBranchDropdownProps) : RenderResult Locals :=
  let repo := repositoryState props in
  let initial :=
    {| l_icon := if isSome (currentPullRequest props) then gitPullRequest else gitBranch;
       l_iconClassName := None;
       l_title := "";
       l_description := if DARWIN then "Current Branch" else "Current branch";
       l_canOpen := true;
       l_disabled := false;
       l_tooltip := "";
       l_progressValue := None |} in
  bindRender (classifyTip (branchesState repo) initial)
             (fun l => Rendered (applyOperation DARWIN repo l)).

(** ** [render], lines 173-201, and the two element builders *)

(** Lines 291-307. *)
Definition renderPullRequestInfo (props : IBranchDropdownProps)
  : option PullRequestBadgeProps :=
  match currentPullRequest props with
  | None => None
  | Some pr =>
      Some {| badgeNumber := pullRequestNumber pr;
              badgeRepository := baseGitHubRepository pr |}
  end.

(** Lines 259-289. *)
Definition renderPopover (props : IBranchDropdownProps) (state : IBranchDropdownState)
  : option CICheckRunPopoverProps :=
  let pr := currentPullRequest props in
  let currentBranchName :=
    match tip (branchesState (repositoryState props)) with
    | Valid branch =>
        match upstreamWithoutRemote branch with
        | Some upstream => upstream
        | None => name branch
        end
    | _ => ""
    end in
  match pr with
  | None => None
  | Some pr =>
      Some {| prNumber := pullRequestNumber pr;
              popoverRepository := baseGitHubRepository pr;
              branchName := currentBranchName;
              popoverBadgeBottom := badgeBottom state |}
  end.

(** Lines 109-202. *)
Definition render (DARWIN : bool) (props : IBranchDropdownProps)
           (state : IBranchDropdownState) : RenderResult Rendering :=
  bindRender (display DARWIN props) (fun l =>
    let currentState := if isOpen props && l_canOpen l then open else closed in
    let buttonClassName := nudgeClassNames (shouldNudge props) in
    Rendered
      {| toolbarDropdown :=
           {| className := "branch-button";
              icon := l_icon l;
              iconClassName := l_iconClassName l;
              title := l_title l;
              description := l_description l;
              tooltip := if isOpen props then None else Some (l_tooltip l);
              dropdownState := currentState;
              disabled := l_disabled l;
              showDisclosureArrow := l_canOpen l;
              progressValue := l_progressValue l;
              buttonClassName := buttonClassName;
              children := renderPullRequestInfo props |};
         popover :=
           if showCIStatusPopover props then renderPopover props state else None |}).

(** ** The calls the event handlers make *)

(** lib/app-state's [FoldoutType]: the component names only the branch
    foldout. *)
Module FoldoutType.
Inductive t : Type :=
| Branch.
End FoldoutType.

(** models/drag-drop's [DragType]: the component asks for commit drags
    only; [OtherDragType] is any other payload. *)
Inductive DragType : Type :=
| Commit
| OtherDragType (kind : string).

Definition DragType_eqb (a b : DragType) : bool :=
  match a, b with
  | Commit, Commit => true
  | OtherDragType k1, OtherDragType k2 => String.eqb k1 k2
  | _, _ => false
  end.

(** The drag-and-drop manager is a global; what the component can see of
    it is the drag in progress, if any. *)
Record DragAndDropManager : Type := {
  dragInProgress : option DragType
}.

(** Modelled from the spec: [isDragOfTypeInProgress] of
    lib/drag-and-drop-manager is not part of this file; it tells whether
    a drag of the given kind is in progress. *)
Definition isDragOfTypeInProgress (m : DragAndDropManager) (type : DragType) : bool :=
  match dragInProgress m with
  | Some d => DragType_eqb d type
  | None => false
  end.

(** One call made on a collaborator. *)
Inductive Call : Type :=
| PropsOnDropDownStateChanged (state : DropdownState)
    (* this.props.onDropDownStateChanged(state) *)
| ShowFoldout (type : FoldoutType.t)
    (* this.props.dispatcher.showFoldout({ type }) *)
| CloseFoldout (type : FoldoutType.t)
    (* this.props.dispatcher.closeFoldout(type) *)
| SetShowCIStatusPopover (show : bool)
    (* this.props.dispatcher.setShowCIStatusPopover(show) *)
| EmitEnterDragZone (zone : string).
    (* dragAndDropManager.emitEnterDragZone(zone) *)

(** Lines 100-107. *)
Definition onDropDownStateChanged (props : IBranchDropdownProps) (state : DropdownState)
  : list Call :=
  match state, checkoutProgress (repositoryState props) with
  | open, Some _ => []
  | _, _ => [PropsOnDropDownStateChanged state]
  end.

(** Lines 210-215. *)
Definition onMouseEnter (dragAndDropManager : DragAndDropManager)
           (props : IBranchDropdownProps) : list Call :=
  if isDragOfTypeInProgress dragAndDropManager Commit
  then [EmitEnterDragZone "branch-button"; ShowFoldout FoldoutType.Branch]
  else [].

(** Lines 234-236. *)
Definition openPopover (props : IBranchDropdownProps) : list Call :=
  [SetShowCIStatusPopover true].

(** ** The document, as far as [closePopover] looks at it *)

(** A node is referred to by its place in the tree: the index among its
    parent's children, followed by the parent's reference; the root is
    [[]]. The parent of a node is thus the tail of its reference. *)
Definition NodeRef : Type := list nat.

Definition NodeRef_eq_dec : forall a b : NodeRef, {a = b} + {a <> b} :=
  list_eq_dec Nat.eq_dec.

(** An element with its [id] (empty when it has none) and its children. *)
#[local] Unset Elimination Schemes.
Inductive DomNode : Type :=
| Element (id : string) (childNodes : list DomNode).
#[local] Set Elimination Schemes.

(** The first element, in tree order, with the wanted id. *)
Fixpoint findById (wanted : string) (here : NodeRef) (n : DomNode) : option NodeRef :=
  match n with
  | Element id childNodes =>
      if String.eqb id wanted then Some here
      else
        (fix inChildren (k : nat) (nodes : list DomNode) : option NodeRef :=
           match nodes with
           | [] => None
           | child :: rest =>
               match findById wanted (k :: here) child with
               | Some found => Some found
               | None => inChildren (S k) rest
               end
           end) 0%nat childNodes
  end.

Definition getElementById (document : DomNode) (id : string) : option NodeRef :=
  findById id [] document.

(** [a.contains(b)] for two nodes of the document: [b] is [a] or has [a]
    among its ancestors, found by walking up from [b]. *)
Fixpoint contains (a b : NodeRef) : bool :=
  if NodeRef_eq_dec a b then true
  else
    match b with
    | [] => false
    | _ :: parentNode => contains a parentNode
    end.

(** What an event's target can be, when it is not [null]. *)
Inductive EventTarget : Type :=
| NodeInDocument (r : NodeRef)
| NodeOutsideDocument
| NotANode.

Record MouseEvent : Type := {
  target : option EventTarget
}.

(** [target instanceof Node] *)
Definition instanceofNode (t : EventTarget) : bool :=
  match t with
  | NotANode => false
  | _ => true
  end.

(** [elem !== null && elem.contains(target)], for an element of the
    document. *)
Definition elemContains (elem : option NodeRef) (t : EventTarget) : bool :=
  match elem, t with
  | Some e, NodeInDocument r => contains e r
  | _, _ => false
  end.

(** Lines 238-257. *)
Definition closePopover (document : DomNode) (props : IBranchDropdownProps)
           (event : option MouseEvent) : list Call :=
  match event with
  | None => [SetShowCIStatusPopover false]
  | Some event =>
      let prBadgeElem := getElementById document "pr-badge" in
      let rerunDialog := getElementById document "rerun-check-runs" in
      let inside :=
        match target event with
        | None => false
        | Some target =>
            instanceofNode target
            && (elemContains prBadgeElem target || elemContains rerunDialog target)
        end in
      if inside then [] else [SetShowCIStatusPopover false]
  end.

(** Lines 221-228. The popover is closed with no event. *)
Definition togglePopover (document : DomNode) (props : IBranchDropdownProps) : list Call :=
  if showCIStatusPopover props
  then closePopover document props None
  else ([CloseFoldout FoldoutType.Branch] ++ openPopover props)%list.

(** Lines 217-219. *)
Definition onBadgeClick (document : DomNode) (props : IBranchDropdownProps) : list Call :=
  togglePopover document props.

(** Lines 230-232. *)
Definition updateBadgeBottomPosition (badgeBottom : Q) (state : IBranchDropdownState)
  : IBranchDropdownState :=
  {| badgeBottom := badgeBottom |}.

(** ** The host: who owns the two visibility flags *)

(** The two surfaces and whether each is shown. The component only reads
    them, as [isOpen] and [showCIStatusPopover]. *)
Record OverlayVisibility : Type := {
  pickerOpen : bool;
  popoverOpen : bool
}.

(** Modelled from the spec: the dispatcher and the host's
    [onDropDownStateChanged] callback are not part of this file. The
    foldout manager opens and closes the branch picker on request, the
    popover flag is set to what is asked, and a forwarded drop-down
    request flips the picker to the requested state. The drag zone
    notice changes neither flag. *)
Definition handleCall (v : OverlayVisibility) (c : Call) : OverlayVisibility :=
  match c with
  | PropsOnDropDownStateChanged open =>
      {| pickerOpen := true; popoverOpen := popoverOpen v |}
  | PropsOnDropDownStateChanged closed =>
      {| pickerOpen := false; popoverOpen := popoverOpen v |}
  | ShowFoldout FoldoutType.Branch =>
      {| pickerOpen := true; popoverOpen := popoverOpen v |}
  | CloseFoldout FoldoutType.Branch =>
      {| pickerOpen := false; popoverOpen := popoverOpen v |}
  | SetShowCIStatusPopover show =>
      {| pickerOpen := pickerOpen v; popoverOpen := show |}
  | EmitEnterDragZone _ => v
  end.

Definition handleCalls (v : OverlayVisibility) (calls : list Call) : OverlayVisibility :=
  fold_left handleCall calls v.

(** What the host pushes into the component besides the two flags, and
    the globals the handlers consult. *)
Record Snapshot : Type := {
  snapRepositoryState : IRepositoryState;
  snapCurrentPullRequest : option PullRequest;
  snapShouldNudge : bool;
  snapDragAndDropManager : DragAndDropManager;
  snapDocument : DomNode
}.

Definition propsOf (s : Snapshot) (v : OverlayVisibility) : IBranchDropdownProps :=
  {| repositoryState := snapRepositoryState s;
     isOpen := pickerOpen v;
     currentPullRequest := snapCurrentPullRequest s;
     shouldNudge := snapShouldNudge s;
     showCIStatusPopover := popoverOpen v |}.

(** The events the component handles. *)
Inductive UiEvent : Type :=
| DropdownRequest (state : DropdownState)   (* click, space or enter on the button *)
| MouseEnter                                (* the pointer enters the button *)
| BadgeClick                                (* click on the pull request badge *)
| PopoverClose (event : option MouseEvent). (* the popover asks to be closed *)

Definition handlerCalls (s : Snapshot) (props : IBranchDropdownProps) (e : UiEvent)
  : list Call :=
  match e with
  | DropdownRequest state => onDropDownStateChanged props state
  | MouseEnter => onMouseEnter (snapDragAndDropManager s) props
  | BadgeClick => onBadgeClick (snapDocument s) props
  | PopoverClose event => closePopover (snapDocument s) props event
  end.

(** One event: the handler runs on the current props, the host carries
    out its calls. *)
Definition step (v : OverlayVisibility) (se : Snapshot * UiEvent) : OverlayVisibility :=
  handleCalls v (handlerCalls (fst se) (propsOf (fst se) v) (snd se)).

Definition run (v : OverlayVisibility) (events : list (Snapshot * UiEvent))
  : OverlayVisibility :=
  fold_left step events v.

Definition allClosed : OverlayVisibility :=
  {| pickerOpen := false; popoverOpen := false |}.

Definition reachable (v : OverlayVisibility) : Prop :=
  exists events, run allClosed events = v.

(** At most one of the two surfaces is shown. *)
Definition atMostOne (v : OverlayVisibility) : bool :=
  negb (pickerOpen v && popoverOpen v).

(** ** Properties the statements below are phrased with *)

(** A tip for which the component shows something. *)
Definition displayable (t : Tip) : Prop :=
  match t with
  | Unborn _ | Detached _ | Valid _ => True
  | Unknown | OtherTip _ => False
  end.

(** The conflict, if any, is a rebase one. *)
Definition rebaseConflict (repo : IRepositoryState) : bool :=
  match conflictState (changesState repo) with
  | Some c => isRebaseConflictState c
  | None => false
  end.

(** [r] is [a] or lies below it. *)
Definition inSubtree (a r : NodeRef) : Prop :=
  exists below : list nat, r = (below ++ a)%list.

(** The target is a node of the document inside the subtree of the
    element carrying [id]. *)
Definition targetWithin (document : DomNode) (id : string) (t : option EventTarget) : Prop :=
  exists e r, getElementById document id = Some e
              /\ t = Some (NodeInDocument r)
              /\ inSubtree e r.

(** The suffix of the description during a checkout: the progress as a
    rounded whole percentage, only once it is above zero. *)
Definition percentSuffix (v : number) : string :=
  if gt0 v
  then " (" ++ numberToString (Math_round (mul v (ofZ 100))) ++ "%)"
  else "".

(** A number above zero: a positive finite one or positive infinity. *)
Definition greaterThanZero (x : number) : Prop :=
  match x with
  | S754_finite false _ _ | S754_infinity false => True
  | _ => False
  end.

(** The props with another conflict state. *)
Definition setConflict (c : option ConflictState) (props : IBranchDropdownProps)
  : IBranchDropdownProps :=
  {| repositoryState :=
       {| branchesState := branchesState (repositoryState props);
          checkoutProgress := checkoutProgress (repositoryState props);
          changesState := {| conflictState := c |} |};
     isOpen := isOpen props;
     currentPullRequest := currentPullRequest props;
     shouldNudge := shouldNudge props;
     showCIStatusPopover := showCIStatusPopover props |}.

(** The props with the checkout and the conflict taken away: what the
    tip alone gives. *)
Definition idle (props : IBranchDropdownProps) : IBranchDropdownProps :=
  {| repositoryState :=
       {| branchesState := branchesState (repositoryState props);
          checkoutProgress := None;
          changesState := {| conflictState := None |} |};
     isOpen := isOpen props;
     currentPullRequest := currentPullRequest props;
     shouldNudge := shouldNudge props;
     showCIStatusPopover := showCIStatusPopover props |}.

(** ** Concrete inputs *)

Definition mainBranch : Branch :=
  {| name := "main"; upstreamWithoutRemote := None; isDesktopForkRemoteBranch := false |}.

Definition forkBranch : Branch :=
  {| name := "pr/12";
     upstreamWithoutRemote := Some "fix-typo";
     isDesktopForkRemoteBranch := false |}.

Definition checkoutOfFeature : ICheckoutProgress :=
  {| targetBranch := "feature"; value := ofRatio 42 100 |}.

Definition rebaseOntoTopic : ConflictState := RebaseConflictState "topic".

Definition examplePullRequest : PullRequest :=
  {| pullRequestNumber := 12;
     baseGitHubRepository := {| fullName := "desktop/desktop" |} |}.

Definition repoWith (t : Tip) (progress : option ICheckoutProgress)
           (conflict : option ConflictState) : IRepositoryState :=
  {| branchesState := {| tip := t; allBranches := [mainBranch] |};
     checkoutProgress := progress;
     changesState := {| conflictState := conflict |} |}.

Definition propsWith (repo : IRepositoryState) (pr : option PullRequest)
           (pickerShown popoverShown : bool) : IBranchDropdownProps :=
  {| repositoryState := repo;
     isOpen := pickerShown;
     currentPullRequest := pr;
     shouldNudge := false;
     showCIStatusPopover := popoverShown |}.

Definition noBadgeYet : IBranchDropdownState := {| badgeBottom := 0 |}.

(** On main, nothing going on. *)
Definition propsIdle : IBranchDropdownProps :=
  propsWith (repoWith (Valid mainBranch) None None) None false false.

(** On main, switching to feature, 42% done. *)
Definition propsCheckingOut : IBranchDropdownProps :=
  propsWith (repoWith (Valid mainBranch) (Some checkoutOfFeature) None) None false false.

(** On main, in a rebase conflict, no checkout. *)
Definition propsRebasing : IBranchDropdownProps :=
  propsWith (repoWith (Valid mainBranch) None (Some rebaseOntoTopic)) None true false.

(** A checkout while the rebase conflict is there. *)
Definition propsCheckingOutWhileRebasing : IBranchDropdownProps :=
  propsWith (repoWith (Valid mainBranch) (Some checkoutOfFeature) (Some rebaseOntoTopic))
            None false false.

(** A detached head with a current pull request. *)
Definition propsDetachedWithPullRequest : IBranchDropdownProps :=
  propsWith (repoWith (Detached "abcdef1234567") None None)
            (Some examplePullRequest) false false.

(** On the branch of a fork's pull request, popover requested. *)
Definition propsForkPullRequest : IBranchDropdownProps :=
  propsWith (repoWith (Valid forkBranch) None None) (Some examplePullRequest) false true.

Definition commitDrag : DragAndDropManager := {| dragInProgress := Some Commit |}.

Definition noDrag : DragAndDropManager := {| dragInProgress := None |}.

(** A page: the toolbar button holding the badge, which holds a label;
    next to it a list. *)
Definition page : DomNode :=
  Element "root"
    [ Element "branch-button" [ Element "pr-badge" [ Element "" [] ] ];
      Element "commit-list" [ Element "" [] ] ].

(** The label inside the badge, and a row of the list. *)
Definition badgeLabel : NodeRef := [0; 0; 0]%nat.

Definition listRow : NodeRef := [0; 1]%nat.

Definition clickOn (r : NodeRef) : MouseEvent :=
  {| target := Some (NodeInDocument r) |}.

Definition snapshotDragging : Snapshot :=
  {| snapRepositoryState := repoWith (Valid mainBranch) None None;
     snapCurrentPullRequest := Some examplePullRequest;
     snapShouldNudge := false;
     snapDragAndDropManager := commitDrag;
     snapDocument := page |}.

Definition popoverShown : OverlayVisibility :=
  {| pickerOpen := false; popoverOpen := true |}.

(** ** The rest of the component *)

(** Lines 70-75: the state the constructor sets. *)
Definition initialState : IBranchDropdownState := {| badgeBottom := 0 |}.

(** models/branches-tab: the tab of the foldout. *)
Inductive BranchesTab : Type :=
| Branches
| PullRequests.

(** What [renderBranchFoldout] reads besides the fields above: two more
    fields of the branches state and three more props. *)
Record FoldoutInputs : Type := {
  recentBranches : list Branch;
  defaultBranch : option Branch;
  selectedTab : BranchesTab;
  pullRequests : list PullRequest;
  isLoadingPullRequests : bool
}.

Record BranchesContainerProps : Type := {
  foldoutAllBranches : list Branch;
  foldoutRecentBranches : list Branch;
  foldoutCurrentBranch : option Branch;
  foldoutDefaultBranch : option Branch;
  foldoutSelectedTab : BranchesTab;
  foldoutPullRequests : list PullRequest;
  foldoutCurrentPullRequest : option PullRequest;
  foldoutIsLoadingPullRequests : bool
}.

(** Lines 77-98. *)
Definition renderBranchFoldout (props : IBranchDropdownProps) (more : FoldoutInputs)
  : BranchesContainerProps :=
  let branchesState := branchesState (repositoryState props) in
  let currentBranch :=
    match tip branchesState with
    | Valid branch => Some branch
    | _ => None
    end in
  {| foldoutAllBranches := allBranches branchesState;
     foldoutRecentBranches := recentBranches more;
     foldoutCurrentBranch := currentBranch;
     foldoutDefaultBranch := defaultBranch more;
     foldoutSelectedTab := selectedTab more;
     foldoutPullRequests := pullRequests more;
     foldoutCurrentPullRequest := currentPullRequest props;
     foldoutIsLoadingPullRequests := isLoadingPullRequests more |}.

(** ** Looking into the document *)

Definition idOf (n : DomNode) : string :=
  match n with
  | Element id _ => id
  end.

(** The node reached from [n] by taking, in turn, the children with the
    given indices. *)
Fixpoint descend (n : DomNode) (path : list nat) : option DomNode :=
  match path with
  | [] => Some n
  | k :: rest =>
      match n with
      | Element _ childNodes =>
          match nth_error childNodes k with
          | Some child => descend child rest
          | None => None
          end
      end
  end.

(** The node a reference stands for: references list the indices from
    the node up to the root. *)
Definition nodeAt (document : DomNode) (r : NodeRef) : option DomNode :=
  descend document (rev r).

(** Induction over a tree of elements, the children taken all at once. *)
Section DomNode_induction.

Variable P : DomNode -> Prop.

Hypothesis step_case :
  forall id childNodes, Forall P childNodes -> P (Element id childNodes).

Fixpoint DomNode_induction (n : DomNode) : P n :=
  match n with
  | Element id childNodes =>
      step_case id childNodes
        ((fix all (nodes : list DomNode) : Forall P nodes :=
            match nodes with
            | [] => Forall_nil P
            | child :: rest => Forall_cons child (DomNode_induction child) (all rest)
            end) childNodes)
  end.

End DomNode_induction.

(** ** Kinds of events *)

Definition isBadgeClick (e : UiEvent) : bool :=
  match e with
  | BadgeClick => true
  | _ => false
  end.

(** An event whose handler will not ask for the branch foldout to be
    shown: no open request unless a checkout is in progress, no
    pointer-enter during a commit drag. *)
Definition leavesPickerClosed (se : Snapshot * UiEvent) : bool :=
  match snd se with
  | DropdownRequest open => isSome (checkoutProgress (snapRepositoryState (fst se)))
  | MouseEnter => negb (isDragOfTypeInProgress (snapDragAndDropManager (fst se)) Commit)
  | _ => true
  end.

(** A branch that lets the foldout open on an unborn tip. *)
Definition eligible (b : Branch) : Prop := isDesktopForkRemoteBranch b = false.

(** The text of the tooltip, which the tip alone decides. *)
Definition tipTooltip (t : Tip) : string :=
  match t with
  | Unborn ref => "Current branch is " ++ ref
  | Detached _ => "Currently on a detached HEAD"
  | Valid branch => "Current branch is " ++ name branch
  | Unknown | OtherTip _ => ""
  end.

(** ** More concrete inputs *)

(** On main, nothing going on, the foldout open. *)
Definition propsPickerOpen : IBranchDropdownProps :=
  propsWith (repoWith (Valid mainBranch) None None) None true false.

(** An unborn tip in a repository whose only branch mirrors a fork. *)
Definition forkMirror : Branch :=
  {| name := "github-desktop-contributor/fix";
     upstreamWithoutRemote := None;
     isDesktopForkRemoteBranch := true |}.

Definition propsUnbornForkOnly : IBranchDropdownProps :=
  {| repositoryState :=
       {| branchesState := {| tip := Unborn "main"; allBranches := [forkMirror] |};
          checkoutProgress := None;
          changesState := {| conflictState := None |} |};
     isOpen := true;
     currentPullRequest := None;
     shouldNudge := false;
     showCIStatusPopover := false |}.

(** On main during a merge conflict. *)
Definition propsMerging : IBranchDropdownProps :=
  propsWith (repoWith (Valid mainBranch) None (Some MergeConflictState)) None false false.

(** A checkout that has barely started. *)
Definition checkoutJustStarted : ICheckoutProgress :=
  {| targetBranch := "feature"; value := ofRatio 1 1000 |}.

(** A checkout at 0.015, where a hundred times the value is 1.5 in
    double arithmetic. *)
Definition checkoutAtHalfPoint : ICheckoutProgress :=
  {| targetBranch := "feature"; value := ofRatio 15 1000 |}.

Definition propsAtHalfPoint : IBranchDropdownProps :=
  propsWith (repoWith (Valid mainBranch) (Some checkoutAtHalfPoint) None) None false false.

(** A checkout whose value is 10^19. *)
Definition checkoutFarBeyond : ICheckoutProgress :=
  {| targetBranch := "feature"; value := ofZ (10 ^ 19) |}.

Definition propsFarBeyond : IBranchDropdownProps :=
  propsWith (repoWith (Valid mainBranch) (Some checkoutFarBeyond) None) None false false.

Definition propsJustStarted : IBranchDropdownProps :=
  propsWith (repoWith (Valid mainBranch) (Some checkoutJustStarted) None) None false false.

Definition noFoldoutInputs : FoldoutInputs :=
  {| recentBranches := [];
     defaultBranch := Some mainBranch;
     selectedTab := Branches;
     pullRequests := [];
     isLoadingPullRequests := false |}.

(** A page without the badge and without the dialog. *)
Definition barePage : DomNode :=
  Element "root" [ Element "branch-button" []; Element "commit-list" [ Element "" [] ] ].

Definition snapshotIdle : Snapshot :=
  {| snapRepositoryState := repoWith (Valid mainBranch) None None;
     snapCurrentPullRequest := Some examplePullRequest;
     snapShouldNudge := false;
     snapDragAndDropManager := noDrag;
     snapDocument := page |}.

(** * Properties *)

(** ** The display *)

(** Splits the props into their fields and the tip into its cases,
    dropping the cases a hypothesis on the tip rules out. *)
Ltac byTip props :=
  destruct props as [[[t branches] progress0 [conflict0]] shown pr0 nudge popoverFlag];
  simpl in *; subst;
  destruct t; simpl in *; try contradiction; try discriminate.

Lemma classifyTip_displayable (branches : IBranchesState) (l : Locals) :
  displayable (tip branches) ->
  exists l', classifyTip branches l = Rendered l'
             /\ l_disabled l' = l_disabled l
             /\ l_iconClassName l' = l_iconClassName l
             /\ l_progressValue l' = l_progressValue l.
Proof.
  destruct branches as [t bs]; simpl.
  destruct t; simpl; try contradiction; intros _;
    (eexists; split; [reflexivity | simpl; auto]).
Qed.

Lemma display_rendered_iff (DARWIN : bool) (props : IBranchDropdownProps) :
  (exists l, display DARWIN props = Rendered l)
  <-> displayable (tip (branchesState (repositoryState props))).
Proof.
  unfold display, bindRender; split.
  - intros [l H]. byTip props; exact I.
  - intros H.
    destruct (classifyTip_displayable (branchesState (repositoryState props))
                {| l_icon := if isSome (currentPullRequest props)
                             then gitPullRequest else gitBranch;
                   l_iconClassName := None;
                   l_title := "";
                   l_description := if DARWIN then "Current Branch" else "Current branch";
                   l_canOpen := true;
                   l_disabled := false;
                   l_tooltip := "";
                   l_progressValue := None |} H) as [l' [E _]].
    rewrite E. eexists; reflexivity.
Qed.

Lemma display_of_render (DARWIN : bool) (props : IBranchDropdownProps)
      (state : IBranchDropdownState) (out : Rendering) :
  render DARWIN props state = Rendered out ->
  exists l, display DARWIN props = Rendered l
            /\ showDisclosureArrow (toolbarDropdown out) = l_canOpen l
            /\ dropdownState (toolbarDropdown out)
               = (if isOpen props && l_canOpen l then open else closed).
Proof.
  unfold render. destruct (display DARWIN props) as [l | | m]; simpl; try discriminate.
  intros E. injection E as <-. exists l. simpl. repeat split.
Qed.

Lemma gt0_greaterThanZero (x : number) :
  gt0 x = (match x with
           | S754_finite false _ _ | S754_infinity false => true
           | _ => false
           end).
Proof.
  destruct x as [s | s | | s m e]; try destruct s; reflexivity.
Qed.

(** A checkout in progress forces [canOpen] to false. *)
Lemma checkout_cannot_open (DARWIN : bool) (props : IBranchDropdownProps) (l : Locals) :
  checkoutProgress (repositoryState props) <> None ->
  display DARWIN props = Rendered l ->
  l_canOpen l = false.
Proof.
  unfold display, bindRender.
  destruct (classifyTip _ _) as [l0 | | m]; try discriminate.
  intros Hc E. injection E as <-. unfold applyOperation.
  destruct (checkoutProgress (repositoryState props)); [reflexivity | congruence].
Qed.

(** The examples of the specification for an idle repository and for a
    detached head. *)
Example idle_example :
  exists out,
    render false propsIdle noBadgeYet = Rendered out
    /\ icon (toolbarDropdown out) = gitBranch
    /\ title (toolbarDropdown out) = "main"
    /\ description (toolbarDropdown out) = "Current branch"
    /\ tooltip (toolbarDropdown out) = Some "Current branch is main"
    /\ showDisclosureArrow (toolbarDropdown out) = true
    /\ disabled (toolbarDropdown out) = false.
Proof.
  eexists; split; [reflexivity | repeat split].
Qed.

Example detached_example :
  exists out,
    render false propsDetachedWithPullRequest noBadgeYet = Rendered out
    /\ title (toolbarDropdown out) = "On abcdef1"
    /\ description (toolbarDropdown out) = "Detached HEAD".
Proof.
  eexists; split; [reflexivity | repeat split].
Qed.

(** ** The gate on open requests *)

(** C1, as stated, fails: under a rebase conflict with no checkout the
    derived [canOpen] is false (and the button is drawn closed although
    the host's [isOpen] is set), yet an open request is not dropped: it
    is forwarded to the host. *)
Lemma open_request_forwarded_under_rebase_conflict :
  (exists l, display false propsRebasing = Rendered l /\ l_canOpen l = false)
  /\ onDropDownStateChanged propsRebasing open = [PropsOnDropDownStateChanged open].
Proof.
  split; [eexists; split; reflexivity | reflexivity].
Qed.

(** C1, amended: an open request delivered to [onDropDownStateChanged]
    is dropped (no call is made) if and only if a checkout is in
    progress; any request that is not dropped is forwarded unchanged to
    the host, and a close request always is. A dropped open request
    implies that the derived [canOpen] is false, not the other way
    round; and whenever [canOpen] is false the button is rendered with
    its drop-down closed, whatever the host's [isOpen] says. *)
Theorem onDropDownStateChanged_gate (props : IBranchDropdownProps) (state : DropdownState) :
  (onDropDownStateChanged props state = []
   <-> state = open /\ checkoutProgress (repositoryState props) <> None)
  /\ (onDropDownStateChanged props state <> []
      -> onDropDownStateChanged props state = [PropsOnDropDownStateChanged state])
  /\ onDropDownStateChanged props closed = [PropsOnDropDownStateChanged closed]
  /\ (forall DARWIN l,
         onDropDownStateChanged props open = [] ->
         display DARWIN props = Rendered l ->
         l_canOpen l = false)
  /\ (forall DARWIN componentState out,
         render DARWIN props componentState = Rendered out ->
         showDisclosureArrow (toolbarDropdown out) = false ->
         dropdownState (toolbarDropdown out) = closed).
Proof.
  unfold onDropDownStateChanged.
  split; [ | split; [ | split; [ | split ]]].
  - split.
    + destruct state; [ | discriminate ].
      destruct (checkoutProgress (repositoryState props)); [ | discriminate ].
      intros _; split; [reflexivity | discriminate].
    + intros [-> Hc].
      destruct (checkoutProgress (repositoryState props)); congruence.
  - destruct state; destruct (checkoutProgress (repositoryState props));
      congruence.
  - reflexivity.
  - intros DARWIN l Hdropped. apply checkout_cannot_open.
    destruct (checkoutProgress (repositoryState props)); discriminate.
  - intros DARWIN componentState out E Harrow.
    destruct (display_of_render _ _ _ _ E) as [l [_ [Hopen Hstate]]].
    rewrite Hstate, <- Hopen, Harrow, andb_false_r. reflexivity.
Qed.

Lemma onDropDownStateChanged_gate_witness :
  onDropDownStateChanged propsCheckingOut open = []
  /\ onDropDownStateChanged propsRebasing open = [PropsOnDropDownStateChanged open].
Proof.
  split.
  - apply (proj1 (onDropDownStateChanged_gate propsCheckingOut open)).
    split; [reflexivity | discriminate].
  - apply (proj1 (proj2 (onDropDownStateChanged_gate propsRebasing open))).
    discriminate.
Defined.

(** ** Drag hover *)

(** C2, as stated, fails: while a checkout is in progress the gate drops
    an open request, yet a pointer-enter during a commit drag asks the
    dispatcher to show the branch foldout all the same; it does not go
    through [onDropDownStateChanged] at all. *)
Lemma mouse_enter_is_not_gated :
  onDropDownStateChanged propsCheckingOut open = []
  /\ In (ShowFoldout FoldoutType.Branch) (onMouseEnter commitDrag propsCheckingOut)
  /\ ~ In (PropsOnDropDownStateChanged open) (onMouseEnter commitDrag propsCheckingOut).
Proof.
  repeat split.
  - simpl. right; left; reflexivity.
  - simpl. intros [H | [H | []]]; discriminate H.
Qed.

(** C2, amended: on pointer-enter while a commit drag is in progress the
    drag-and-drop manager is told that the zone 'branch-button' was
    entered and the dispatcher is asked directly to show the branch
    foldout, whatever the props are (so also during a checkout: the
    request does not pass the gate); with no drag, or a drag of another
    kind, no call is made. *)
Theorem onMouseEnter_calls (dragAndDropManager : DragAndDropManager)
        (props : IBranchDropdownProps) :
  onMouseEnter dragAndDropManager props
  = match dragInProgress dragAndDropManager with
    | Some Commit => [EmitEnterDragZone "branch-button"; ShowFoldout FoldoutType.Branch]
    | Some (OtherDragType _) | None => []
    end.
Proof.
  unfold onMouseEnter, isDragOfTypeInProgress.
  destruct (dragInProgress dragAndDropManager) as [[ | kind] | ]; reflexivity.
Qed.

(** ** Checkout in progress *)

(** The example of the specification: on main, switching to feature,
    42% done. *)
Example checkout_example :
  exists out,
    render false propsCheckingOut noBadgeYet = Rendered out
    /\ title (toolbarDropdown out) = "feature"
    /\ description (toolbarDropdown out) = "Switching to branch (42%)"
    /\ showDisclosureArrow (toolbarDropdown out) = false
    /\ progressValue (toolbarDropdown out) = Some (ofRatio 42 100).
Proof.
  eexists; split; [reflexivity | repeat split].
Qed.

(** C3, as stated, fails on the description: in a macOS build
    ([__DARWIN__] set) the text is 'Switching to Branch', not
    'Switching to branch'. *)
Lemma checkout_description_on_darwin :
  exists out,
    render true propsCheckingOut noBadgeYet = Rendered out
    /\ description (toolbarDropdown out) = "Switching to Branch (42%)"
    /\ description (toolbarDropdown out)
       <> "Switching to branch" ++ percentSuffix (value checkoutOfFeature).
Proof.
  eexists; split; [reflexivity | split; [reflexivity | ]].
  vm_compute. discriminate.
Qed.

(** C3, amended: whenever a checkout is in progress and the tip is one
    that is displayed, even with a rebase conflict present, the display
    has as title the checkout's target branch; as description
    'Switching to branch' ('Switching to Branch' in a macOS build)
    followed by the rounded whole percentage if and only if the progress
    value is above zero; the spinning sync icon; [canOpen] false, hence
    the drop-down closed; [disabled] as the tip alone gives it, that is
    false; and the checkout's value as progress value. The conflict
    state has no influence on the outcome. *)
Theorem checkout_takes_over (DARWIN : bool) (props : IBranchDropdownProps)
        (state : IBranchDropdownState) (progress : ICheckoutProgress) :
  checkoutProgress (repositoryState props) = Some progress ->
  displayable (tip (branchesState (repositoryState props))) ->
  exists out,
    render DARWIN props state = Rendered out
    /\ title (toolbarDropdown out) = targetBranch progress
    /\ description (toolbarDropdown out)
       = (if DARWIN then "Switching to Branch" else "Switching to branch")
           ++ percentSuffix (value progress)
    /\ (percentSuffix (value progress) <> "" <-> greaterThanZero (value progress))
    /\ icon (toolbarDropdown out) = syncClockwise
    /\ iconClassName (toolbarDropdown out) = Some "spin"
    /\ showDisclosureArrow (toolbarDropdown out) = false
    /\ dropdownState (toolbarDropdown out) = closed
    /\ disabled (toolbarDropdown out) = false
    /\ (forall base, render DARWIN (idle props) state = Rendered base ->
                     disabled (toolbarDropdown out) = disabled (toolbarDropdown base))
    /\ progressValue (toolbarDropdown out) = Some (value progress)
    /\ (forall conflict,
           render DARWIN (setConflict conflict props) state = render DARWIN props state).
Proof.
  intros Hprogress Htip.
  assert (Hsuffix : percentSuffix (value progress) <> ""
                    <-> greaterThanZero (value progress)).
  { unfold percentSuffix. rewrite gt0_greaterThanZero.
    destruct (value progress) as [s | s | | s m e]; try destruct s; cbn;
      split; intros H; try discriminate; try exact I; try contradiction;
      congruence. }
  assert (Hdescription :
            (if gt0 (value progress)
             then (if DARWIN then "Switching to Branch" else "Switching to branch")
                    ++ " (" ++ numberToString
                                 (Math_round (mul (value progress) (ofZ 100))) ++ "%)"
             else if DARWIN then "Switching to Branch" else "Switching to branch")
            = (if DARWIN then "Switching to Branch" else "Switching to branch")
                ++ percentSuffix (value progress)).
  { unfold percentSuffix. destruct DARWIN, (gt0 (value progress)); reflexivity. }
  byTip props;
    (eexists; split; [reflexivity | ]);
    cbn [toolbarDropdown title description icon iconClassName showDisclosureArrow
         dropdownState disabled progressValue];
    rewrite andb_false_r;
    (repeat split; try exact Hdescription; try apply Hsuffix;
     intros base E; injection E as <-; reflexivity).
Qed.

Lemma checkout_takes_over_witness :
  exists out,
    render false propsCheckingOutWhileRebasing noBadgeYet = Rendered out
    /\ title (toolbarDropdown out) = "feature"
    /\ disabled (toolbarDropdown out) = false.
Proof.
  destruct (checkout_takes_over false propsCheckingOutWhileRebasing noBadgeYet
              checkoutOfFeature eq_refl I)
    as [out [E [Htitle [_ [_ [_ [_ [_ [_ [Hdisabled _]]]]]]]]]].
  exists out. split; [exact E | split; [exact Htitle | exact Hdisabled]].
Defined.

(** ** Rebase conflict *)

(** C4, as stated, fails: with a checkout in progress next to the rebase
    conflict the button is not disabled and its title is the checkout's
    target, not the conflict's. *)
Lemma rebase_conflict_display_lost_during_checkout :
  rebaseConflict (repositoryState propsCheckingOutWhileRebasing) = true
  /\ exists out,
       render false propsCheckingOutWhileRebasing noBadgeYet = Rendered out
       /\ disabled (toolbarDropdown out) = false
       /\ title (toolbarDropdown out) = "feature"
       /\ title (toolbarDropdown out) <> conflictTargetBranch rebaseOntoTopic.
Proof.
  split; [reflexivity | ].
  eexists; split; [reflexivity | repeat split].
  vm_compute. discriminate.
Qed.

(** C4, amended: for every conflict state of the rebase kind and every
    tip that is displayed, when no checkout is in progress, the display
    has [canOpen] false (hence the drop-down closed) and [disabled]
    true, the conflict's target branch as title, the description
    'Rebasing branch' and the branch icon, pull request or not. *)
Theorem rebase_conflict_blocks (DARWIN : bool) (props : IBranchDropdownProps)
        (state : IBranchDropdownState) (conflict : ConflictState) :
  checkoutProgress (repositoryState props) = None ->
  conflictState (changesState (repositoryState props)) = Some conflict ->
  isRebaseConflictState conflict = true ->
  displayable (tip (branchesState (repositoryState props))) ->
  exists out,
    render DARWIN props state = Rendered out
    /\ showDisclosureArrow (toolbarDropdown out) = false
    /\ dropdownState (toolbarDropdown out) = closed
    /\ disabled (toolbarDropdown out) = true
    /\ title (toolbarDropdown out) = conflictTargetBranch conflict
    /\ description (toolbarDropdown out) = "Rebasing branch"
    /\ icon (toolbarDropdown out) = gitBranch
    /\ progressValue (toolbarDropdown out) = None.
Proof.
  intros Hprogress Hconflict Hrebase Htip.
  destruct conflict as [ | target | ]; try discriminate Hrebase.
  byTip props;
    (eexists; split; [reflexivity | ]);
    cbn [toolbarDropdown title description icon showDisclosureArrow
         dropdownState disabled progressValue];
    rewrite andb_false_r; repeat split.
Qed.

Lemma rebase_conflict_blocks_witness :
  exists out,
    render false propsRebasing noBadgeYet = Rendered out
    /\ disabled (toolbarDropdown out) = true
    /\ title (toolbarDropdown out) = "topic".
Proof.
  destruct (rebase_conflict_blocks false propsRebasing noBadgeYet rebaseOntoTopic
              eq_refl eq_refl eq_refl I)
    as [out [E [_ [_ [Hdisabled [Htitle _]]]]]].
  exists out. split; [exact E | split; [exact Hdisabled | exact Htitle]].
Defined.

(** ** The pull request icon *)

(** C5, as stated, fails: on a detached head the commit icon replaces
    the pull request icon although a current pull request exists. *)
Lemma detached_head_shows_commit_icon :
  currentPullRequest propsDetachedWithPullRequest = Some examplePullRequest
  /\ exists out,
       render false propsDetachedWithPullRequest noBadgeYet = Rendered out
       /\ icon (toolbarDropdown out) = gitCommit
       /\ icon (toolbarDropdown out) <> gitPullRequest.
Proof.
  split; [reflexivity | ].
  eexists; split; [reflexivity | split; [reflexivity | discriminate]].
Qed.

(** C5, amended: whenever a current pull request exists, no checkout is
    in progress and no rebase conflict is present, the icon is the pull
    request icon for an unborn and for a valid tip, and the commit icon
    for a detached one. A checkout shows the sync icon and a rebase
    conflict the branch icon instead. *)
Theorem pull_request_icon (DARWIN : bool) (props : IBranchDropdownProps)
        (state : IBranchDropdownState) (pr : PullRequest) :
  currentPullRequest props = Some pr ->
  displayable (tip (branchesState (repositoryState props))) ->
  exists out,
    render DARWIN props state = Rendered out
    /\ icon (toolbarDropdown out)
       = if isSome (checkoutProgress (repositoryState props)) then syncClockwise
         else if rebaseConflict (repositoryState props) then gitBranch
         else match tip (branchesState (repositoryState props)) with
              | Detached _ => gitCommit
              | _ => gitPullRequest
              end.
Proof.
  intros Hpr Htip. unfold rebaseConflict.
  byTip props;
    destruct progress0 as [progress | ];
    try (eexists; split; reflexivity);
    destruct conflict0 as [conflict | ];
    try (eexists; split; reflexivity);
    destruct conflict; eexists; split; reflexivity.
Qed.

Lemma pull_request_icon_witness :
  exists out,
    render false propsForkPullRequest noBadgeYet = Rendered out
    /\ icon (toolbarDropdown out) = gitPullRequest.
Proof.
  destruct (pull_request_icon false propsForkPullRequest noBadgeYet examplePullRequest
              eq_refl I) as [out [E Hicon]].
  exists out. split; [exact E | exact Hicon].
Defined.

(** ** Closing the popover *)

(** Walking up from [b] finds [a] exactly when [b] lies in the subtree
    of [a]. *)
Lemma contains_inSubtree (a b : NodeRef) :
  contains a b = true <-> inSubtree a b.
Proof.
  unfold inSubtree.
  induction b as [ | x b IH]; simpl.
  - destruct (NodeRef_eq_dec a []) as [-> | Hne]; split; intros H.
    + exists []; reflexivity.
    + reflexivity.
    + discriminate H.
    + destruct H as [below H]. symmetry in H.
      apply app_eq_nil in H. destruct H as [_ H]. contradiction.
  - destruct (NodeRef_eq_dec a (x :: b)) as [-> | Hne].
    + split; intros _; [exists []; reflexivity | reflexivity].
    + rewrite IH. split; intros [below H].
      * exists (x :: below). simpl. rewrite H. reflexivity.
      * destruct below as [ | y below]; simpl in H.
        -- congruence.
        -- injection H as _ H. exists below. exact H.
Qed.

Lemma elemContains_targetWithin (document : DomNode) (id : string) (t : EventTarget) :
  elemContains (getElementById document id) t = true
  <-> targetWithin document id (Some t).
Proof.
  unfold elemContains, targetWithin. split.
  - destruct (getElementById document id) as [e | ]; [ | discriminate ].
    destruct t as [r | | ]; try discriminate.
    intros H. exists e, r. rewrite <- contains_inSubtree. auto.
  - intros [e [r [-> [Ht Hin]]]]. injection Ht as ->.
    apply contains_inSubtree. exact Hin.
Qed.

Lemma elemContains_isNode (elem : option NodeRef) (t : EventTarget) :
  elemContains elem t = true -> instanceofNode t = true.
Proof.
  destruct elem, t; simpl; intros H; try discriminate; reflexivity.
Qed.

Lemma targetWithin_not_null (document : DomNode) (id : string) :
  ~ targetWithin document id None.
Proof.
  intros [e [r [_ [H _]]]]. discriminate H.
Qed.

(** C6: called with no event, [closePopover] closes the popover. Called
    with a pointer event, it leaves the popover alone when the event's
    target is a node in the subtree of the element 'pr-badge' or of the
    element 'rerun-check-runs' (found by walking up from the target),
    and closes it for any other target. *)
Theorem closePopover_outside_click (document : DomNode) (props : IBranchDropdownProps) :
  closePopover document props None = [SetShowCIStatusPopover false]
  /\ forall event : MouseEvent,
      ((targetWithin document "pr-badge" (target event)
        \/ targetWithin document "rerun-check-runs" (target event))
       -> closePopover document props (Some event) = [])
      /\ (~ (targetWithin document "pr-badge" (target event)
             \/ targetWithin document "rerun-check-runs" (target event))
          -> closePopover document props (Some event) = [SetShowCIStatusPopover false]).
Proof.
  split; [reflexivity | ].
  intros [t]. unfold closePopover. cbn [target].
  destruct t as [t | ].
  - pose proof (elemContains_targetWithin document "pr-badge" t) as Hbadge.
    pose proof (elemContains_targetWithin document "rerun-check-runs" t) as Hdialog.
    pose proof (elemContains_isNode (getElementById document "pr-badge") t) as Hnode1.
    pose proof (elemContains_isNode (getElementById document "rerun-check-runs") t)
      as Hnode2.
    destruct (elemContains (getElementById document "pr-badge") t);
      destruct (elemContains (getElementById document "rerun-check-runs") t);
      try rewrite (Hnode1 eq_refl); try rewrite (Hnode2 eq_refl);
      rewrite ?andb_false_r; cbn [orb andb]; split; intros H;
      try reflexivity.
    + exfalso. apply H. left. apply Hbadge. reflexivity.
    + exfalso. apply H. left. apply Hbadge. reflexivity.
    + exfalso. apply H. right. apply Hdialog. reflexivity.
    + exfalso. destruct H as [H | H]; [apply Hbadge in H | apply Hdialog in H];
        discriminate H.
  - split; intros H; [ | reflexivity ].
    exfalso. destruct H as [H | H]; exact (targetWithin_not_null _ _ H).
Qed.

Lemma closePopover_outside_click_witness :
  closePopover page propsForkPullRequest (Some (clickOn badgeLabel)) = []
  /\ closePopover page propsForkPullRequest (Some (clickOn listRow))
     = [SetShowCIStatusPopover false].
Proof.
  split.
  - apply (proj1 (proj2 (closePopover_outside_click page propsForkPullRequest)
                    (clickOn badgeLabel))).
    left. exists [0; 0]%nat, badgeLabel.
    split; [reflexivity | split; [reflexivity | exists [0%nat]; reflexivity]].
  - apply (proj2 (proj2 (closePopover_outside_click page propsForkPullRequest)
                    (clickOn listRow))).
    intros [[e [r [He [Hr [below Hin]]]]] | [e [r [He _]]]].
    + injection Hr as <-. vm_compute in He. injection He as <-.
      destruct below as [ | ? [ | ? [ | ? ?]]]; discriminate Hin.
    + vm_compute in He. discriminate He.
Defined.

(** ** Toggling the popover *)

Lemma closePopover_calls (document : DomNode) (props : IBranchDropdownProps)
      (event : option MouseEvent) :
  closePopover document props event = []
  \/ closePopover document props event = [SetShowCIStatusPopover false].
Proof.
  unfold closePopover. destruct event as [event | ]; [ | right; reflexivity ].
  match goal with |- context [if ?c then _ else _] => destruct c end; auto.
Qed.

(** C7: a toggle closes a shown popover and opens a hidden one, in the
    latter case asking first that the branch foldout be closed; with the
    host carrying out the calls and nothing else changing, two toggles in
    a row leave the popover flag as it was. *)
Theorem togglePopover_twice (s : Snapshot) (v : OverlayVisibility) :
  popoverOpen (step (step v (s, BadgeClick)) (s, BadgeClick)) = popoverOpen v
  /\ popoverOpen (step v (s, BadgeClick)) = negb (popoverOpen v)
  /\ togglePopover (snapDocument s) (propsOf s v)
     = if popoverOpen v
       then [SetShowCIStatusPopover false]
       else [CloseFoldout FoldoutType.Branch; SetShowCIStatusPopover true].
Proof.
  destruct v as [picker [ | ]]; repeat split.
Qed.

(** ** Mutual exclusion of the two surfaces *)

(** C8, as stated, fails: from both surfaces closed, a click on the
    badge shows the popover, and a pointer-enter during a commit drag
    then shows the branch foldout without asking that the popover be
    closed; both flags are set. *)
Lemma both_surfaces_shown_is_reachable :
  exists v, reachable v
            /\ pickerOpen v = true
            /\ popoverOpen v = true
            /\ atMostOne v = false.
Proof.
  exists (run allClosed [(snapshotDragging, BadgeClick); (snapshotDragging, MouseEnter)]).
  split; [ | repeat split ].
  eexists; reflexivity.
Qed.

(** C8, amended: the operations on the popover keep at most one of the
    two flags set. A toggle always ends with at most one set, because
    opening the popover first asks the foldout manager to close the
    branch foldout; closing the popover and a close request for the
    drop-down preserve the property. The operations that open the branch
    foldout (a forwarded open request, a drag hover) never ask that the
    popover be closed. *)
Theorem popover_operations_keep_exclusion (s : Snapshot) (v : OverlayVisibility) :
  atMostOne (step v (s, BadgeClick)) = true
  /\ (forall event,
         atMostOne v = true -> atMostOne (step v (s, PopoverClose event)) = true)
  /\ (atMostOne v = true -> atMostOne (step v (s, DropdownRequest closed)) = true)
  /\ (popoverOpen v = false ->
      togglePopover (snapDocument s) (propsOf s v)
      = [CloseFoldout FoldoutType.Branch; SetShowCIStatusPopover true])
  /\ (forall state show,
         ~ In (SetShowCIStatusPopover show) (onDropDownStateChanged (propsOf s v) state))
  /\ (forall show,
         ~ In (SetShowCIStatusPopover show)
              (onMouseEnter (snapDragAndDropManager s) (propsOf s v))).
Proof.
  split; [ | split; [ | split; [ | split; [ | split ]]]].
  - destruct v as [[ | ] [ | ]]; reflexivity.
  - intros event Hv. unfold step, handlerCalls. cbn [fst snd].
    destruct (closePopover_calls (snapDocument s) (propsOf s v) event) as [-> | ->].
    + exact Hv.
    + unfold atMostOne. cbn. rewrite andb_false_r. reflexivity.
  - intros Hv. unfold step, handlerCalls, onDropDownStateChanged. cbn. reflexivity.
  - intros Hv. unfold togglePopover. cbn. rewrite Hv. reflexivity.
  - intros state show. unfold onDropDownStateChanged.
    destruct state; destruct (checkoutProgress (repositoryState (propsOf s v)));
      cbn; intuition discriminate.
  - intros show. unfold onMouseEnter.
    destruct (isDragOfTypeInProgress (snapDragAndDropManager s) Commit);
      cbn; intuition discriminate.
Qed.

Lemma popover_operations_keep_exclusion_witness :
  atMostOne (step popoverShown (snapshotDragging, PopoverClose (Some (clickOn badgeLabel))))
  = true.
Proof.
  apply (proj1 (proj2 (popover_operations_keep_exclusion snapshotDragging popoverShown))).
  reflexivity.
Defined.

(** ** Exhaustiveness of the tip classification *)

(** C9: an unknown tip makes [render] return null; a tip of none of the
    four kinds ends in [assertNever] with a message naming the kind, and
    nothing is displayed; each of the three other kinds yields elements. *)
Theorem tip_classification_exhaustive (DARWIN : bool) (props : IBranchDropdownProps)
        (state : IBranchDropdownState) :
  match tip (branchesState (repositoryState props)) with
  | Unknown => render DARWIN props state = RenderNull
  | OtherTip tipKind =>
      render DARWIN props state = UnreachableState ("Unknown tip state: " ++ tipKind)
  | Unborn _ | Detached _ | Valid _ =>
      exists out, render DARWIN props state = Rendered out
  end.
Proof.
  destruct props as [[[t branches] progress [conflict]] shown pr nudge popoverFlag].
  destruct t; cbn; try reflexivity; eexists; reflexivity.
Qed.

(** ** The popover element *)

(** C10: for a tip that is displayed, [render] yields a popover exactly
    when the host's flag is set and a current pull request exists, so
    none without a pull request even with the flag set; the branch name
    handed to the popover is the valid tip's [upstreamWithoutRemote], or
    its name when that is null, and the empty string for the other
    tips. *)
Theorem popover_needs_pull_request (DARWIN : bool) (props : IBranchDropdownProps)
        (state : IBranchDropdownState) :
  displayable (tip (branchesState (repositoryState props))) ->
  exists out,
    render DARWIN props state = Rendered out
    /\ (currentPullRequest props = None -> popover out = None)
    /\ (popover out <> None
        <-> showCIStatusPopover props = true /\ currentPullRequest props <> None)
    /\ (forall p, popover out = Some p ->
                  branchName p
                  = match tip (branchesState (repositoryState props)) with
                    | Valid branch =>
                        match upstreamWithoutRemote branch with
                        | Some upstream => upstream
                        | None => name branch
                        end
                    | _ => ""
                    end).
Proof.
  intros Htip.
  byTip props;
    (eexists; split; [reflexivity | ]);
    cbn [popover];
    destruct popoverFlag, pr0 as [pr | ]; cbn;
    (split; [ | split; [split | ]]);
    try congruence;
    try (intros [H1 H2]; congruence);
    try (intros H; split; congruence);
    try (intros p H; injection H as <-; reflexivity).
Qed.

Lemma popover_needs_pull_request_witness :
  exists out,
    render false propsForkPullRequest noBadgeYet = Rendered out
    /\ exists p, popover out = Some p /\ branchName p = "fix-typo".
Proof.
  destruct (popover_needs_pull_request false propsForkPullRequest noBadgeYet I)
    as [out [E [_ [Hiff Hname]]]].
  exists out. split; [exact E | ].
  destruct (popover out) as [p | ] eqn:Hp.
  - exists p. split; [reflexivity | exact (Hname p eq_refl)].
  - exfalso. apply (proj2 Hiff); [split; [reflexivity | discriminate] | reflexivity].
Defined.

(** * Further properties of the component *)

(** ** What the button allows *)

(** After [byTip]: the cases of the checkout and of the conflict, and
    the elements [render] yields in each. *)
Ltac byOperation :=
  match goal with
  | progress0 : option ICheckoutProgress, conflict0 : option ConflictState |- _ =>
      destruct progress0 as [running | ];
      [ | destruct conflict0 as [[ | rebaseTarget | ] | ] ]
  end;
  (eexists; split; [reflexivity | ]);
  simpl.

Lemma existsb_eligible (branches : list Branch) :
  existsb (fun b => negb (isDesktopForkRemoteBranch b)) branches = true
  <-> exists b, In b branches /\ eligible b.
Proof.
  rewrite existsb_exists. unfold eligible.
  split; intros [b [Hin Hb]]; exists b; split; auto.
  - now apply negb_true_iff.
  - now apply negb_true_iff.
Qed.

Lemma drawn_open_iff (shown canOpen : bool) :
  (if shown && canOpen then open else closed) = open
  <-> shown = true /\ canOpen = true.
Proof.
  destruct shown, canOpen; cbn; split; intros H;
    try discriminate H; auto; destruct H; discriminate.
Qed.

(** X1: for a tip that is displayed, the drop-down can be opened (the
    disclosure arrow is shown) exactly when no checkout is in progress,
    no rebase conflict is present and, on an unborn tip, some branch is
    not the mirror of a fork's branch; and the drop-down is drawn open
    exactly when the host says it is open and it can be opened. *)
Theorem canOpen_exactly (DARWIN : bool) (props : IBranchDropdownProps)
        (state : IBranchDropdownState) :
  displayable (tip (branchesState (repositoryState props))) ->
  exists out,
    render DARWIN props state = Rendered out
    /\ (showDisclosureArrow (toolbarDropdown out) = true
        <-> checkoutProgress (repositoryState props) = None
            /\ rebaseConflict (repositoryState props) = false
            /\ (forall ref,
                   tip (branchesState (repositoryState props)) = Unborn ref ->
                   exists b, In b (allBranches (branchesState (repositoryState props)))
                             /\ eligible b))
    /\ (dropdownState (toolbarDropdown out) = open
        <-> isOpen props = true /\ showDisclosureArrow (toolbarDropdown out) = true).
Proof.
  intros Htip. unfold rebaseConflict.
  byTip props; byOperation;
    (split; [ | apply drawn_open_iff ]);
    try rewrite existsb_eligible;
    (split;
     [ intros H; try discriminate H;
       repeat split; try reflexivity;
       intros ref' Href; try discriminate Href; exact H
     | intros [Hc [Hr Hb]]; try discriminate Hc; try discriminate Hr;
       try reflexivity; exact (Hb _ eq_refl) ]).
Qed.

Lemma canOpen_exactly_witness :
  exists out,
    render false propsUnbornForkOnly initialState = Rendered out
    /\ showDisclosureArrow (toolbarDropdown out) = false
    /\ dropdownState (toolbarDropdown out) = closed.
Proof.
  destruct (canOpen_exactly false propsUnbornForkOnly initialState I)
    as [out [E [Harrow Hdrawn]]].
  exists out. split; [exact E | ].
  assert (Hno : showDisclosureArrow (toolbarDropdown out) = false).
  { destruct (showDisclosureArrow (toolbarDropdown out)); [ | reflexivity ].
    destruct (proj1 Harrow eq_refl) as [_ [_ Hb]].
    destruct (Hb "main" eq_refl) as [b [[<- | []] Hb']]. discriminate Hb'. }
  split; [exact Hno | ].
  destruct (dropdownState (toolbarDropdown out)); [ | reflexivity ].
  destruct (proj1 Hdrawn eq_refl) as [_ H]. congruence.
Defined.

(** X2: for a tip that is displayed, the button is disabled exactly when
    a rebase conflict is present and no checkout is in progress. *)
Theorem disabled_exactly (DARWIN : bool) (props : IBranchDropdownProps)
        (state : IBranchDropdownState) :
  displayable (tip (branchesState (repositoryState props))) ->
  exists out,
    render DARWIN props state = Rendered out
    /\ (disabled (toolbarDropdown out) = true
        <-> checkoutProgress (repositoryState props) = None
            /\ rebaseConflict (repositoryState props) = true).
Proof.
  intros Htip. unfold rebaseConflict.
  byTip props; byOperation;
    (split; [ intros H; try discriminate H; split; reflexivity
            | intros [Hc Hr]; try discriminate Hc; try discriminate Hr; reflexivity ]).
Qed.

Lemma disabled_exactly_witness :
  exists out,
    render false propsMerging initialState = Rendered out
    /\ disabled (toolbarDropdown out) = false.
Proof.
  destruct (disabled_exactly false propsMerging initialState I) as [out [E Hiff]].
  exists out. split; [exact E | ].
  destruct (disabled (toolbarDropdown out)); [ | reflexivity ].
  destruct (proj1 Hiff eq_refl) as [_ H]. discriminate H.
Defined.

(** X3: for a tip that is displayed, a progress value is handed to the
    button exactly during a checkout, and it is the checkout's value;
    the icon spins during a checkout and has no class otherwise. *)
Theorem progress_only_during_checkout (DARWIN : bool) (props : IBranchDropdownProps)
        (state : IBranchDropdownState) :
  displayable (tip (branchesState (repositoryState props))) ->
  exists out,
    render DARWIN props state = Rendered out
    /\ progressValue (toolbarDropdown out)
       = option_map value (checkoutProgress (repositoryState props))
    /\ iconClassName (toolbarDropdown out)
       = (if isSome (checkoutProgress (repositoryState props))
          then Some "spin" else None)
    /\ (icon (toolbarDropdown out) = syncClockwise
        <-> checkoutProgress (repositoryState props) <> None).
Proof.
  intros Htip.
  byTip props; destruct pr0; byOperation;
    (split; [reflexivity | split; [reflexivity | ]]);
    (split; [ intros H; try discriminate H; discriminate
            | intros H; try reflexivity; congruence ]).
Qed.

Lemma progress_only_during_checkout_witness :
  exists out,
    render false propsRebasing initialState = Rendered out
    /\ progressValue (toolbarDropdown out) = None
    /\ iconClassName (toolbarDropdown out) = None.
Proof.
  destruct (progress_only_during_checkout false propsRebasing initialState I)
    as [out [E [Hvalue [Hclass _]]]].
  exists out. split; [exact E | split; [exact Hvalue | exact Hclass]].
Defined.

(** ** Conflicts other than a rebase *)

(** X4: a conflict that is not a rebase one (a merge, say) changes
    nothing: [render] yields what it yields with no conflict, and the
    gate lets through what it lets through with no conflict. *)
Theorem other_conflicts_ignored (DARWIN : bool) (props : IBranchDropdownProps)
        (state : IBranchDropdownState) (conflict : ConflictState) :
  isRebaseConflictState conflict = false ->
  render DARWIN (setConflict (Some conflict) props) state
  = render DARWIN (setConflict None props) state
  /\ forall request,
      onDropDownStateChanged (setConflict (Some conflict) props) request
      = onDropDownStateChanged (setConflict None props) request.
Proof.
  intros Hkind.
  destruct conflict; try discriminate Hkind;
    (split; [ | reflexivity ]);
    destruct props as [[[t branches] progress0 [conflict0]] shown pr0 nudge popoverFlag];
    destruct t, progress0; reflexivity.
Qed.

Lemma other_conflicts_ignored_witness :
  render false propsMerging initialState = render false propsIdle initialState.
Proof.
  exact (proj1 (other_conflicts_ignored false propsMerging initialState
                  MergeConflictState eq_refl)).
Defined.

(** ** The tooltip *)

(** X5: for a tip that is displayed, the button gets no tooltip while
    the host says the drop-down is open, also when the drop-down is
    drawn closed because it cannot be opened; otherwise the tooltip is
    the text the tip alone gives, which neither a checkout nor a rebase
    conflict replaces. *)
Theorem tooltip_follows_tip (DARWIN : bool) (props : IBranchDropdownProps)
        (state : IBranchDropdownState) :
  displayable (tip (branchesState (repositoryState props))) ->
  exists out,
    render DARWIN props state = Rendered out
    /\ tooltip (toolbarDropdown out)
       = if isOpen props
         then None
         else Some (tipTooltip (tip (branchesState (repositoryState props)))).
Proof.
  intros Htip.
  byTip props; byOperation; reflexivity.
Qed.

Lemma tooltip_follows_tip_witness :
  exists out,
    render false propsCheckingOut initialState = Rendered out
    /\ title (toolbarDropdown out) = "feature"
    /\ tooltip (toolbarDropdown out) = Some "Current branch is main".
Proof.
  destruct (tooltip_follows_tip false propsCheckingOut initialState I) as [out [E Htool]].
  exists out. split; [exact E | ].
  split; [ | exact Htool ].
  vm_compute in E. injection E as <-. reflexivity.
Defined.

(** ** No operation in flight *)

(** X6: with no checkout in progress and no rebase conflict, the title
    is the unborn reference, 'On ' and the first seven characters of
    the detached commit, or the name of the branch; the description is
    'Detached HEAD' on a detached head and 'Current branch' ('Current
    Branch' in a macOS build) otherwise; the icon is the commit icon on
    a detached head, else the pull request icon if there is a current
    pull request and the branch icon if not. *)
Theorem idle_display (DARWIN : bool) (props : IBranchDropdownProps)
        (state : IBranchDropdownState) :
  checkoutProgress (repositoryState props) = None ->
  rebaseConflict (repositoryState props) = false ->
  displayable (tip (branchesState (repositoryState props))) ->
  exists out,
    render DARWIN props state = Rendered out
    /\ title (toolbarDropdown out)
       = match tip (branchesState (repositoryState props)) with
         | Unborn ref => ref
         | Detached currentSha => "On " ++ substr07 currentSha
         | Valid branch => name branch
         | Unknown | OtherTip _ => ""
         end
    /\ description (toolbarDropdown out)
       = match tip (branchesState (repositoryState props)) with
         | Detached _ => "Detached HEAD"
         | _ => if DARWIN then "Current Branch" else "Current branch"
         end
    /\ icon (toolbarDropdown out)
       = match tip (branchesState (repositoryState props)) with
         | Detached _ => gitCommit
         | _ => match currentPullRequest props with
                | Some _ => gitPullRequest
                | None => gitBranch
                end
         end.
Proof.
  unfold rebaseConflict. intros Hprogress Hconflict Htip.
  byTip props; destruct pr0;
    (destruct conflict0 as [[ | rebaseTarget | ] | ]; try discriminate Hconflict);
    (eexists; split; [reflexivity | repeat split]).
Qed.

Lemma idle_display_witness :
  exists out,
    render true propsMerging initialState = Rendered out
    /\ title (toolbarDropdown out) = "main"
    /\ description (toolbarDropdown out) = "Current Branch".
Proof.
  destruct (idle_display true propsMerging initialState eq_refl eq_refl I)
    as [out [E [Htitle [Hdescription _]]]].
  exists out. split; [exact E | split; [exact Htitle | exact Hdescription]].
Defined.

(** X7: on an unborn tip in a repository where every branch mirrors a
    fork's branch, in particular with no branch at all, the drop-down
    cannot be opened: no disclosure arrow, and drawn closed whatever the
    host says; the button is not disabled for that. *)
Theorem unborn_without_eligible_branch (DARWIN : bool) (props : IBranchDropdownProps)
        (state : IBranchDropdownState) (ref : string) :
  tip (branchesState (repositoryState props)) = Unborn ref ->
  (forall b, In b (allBranches (branchesState (repositoryState props))) -> ~ eligible b) ->
  exists out,
    render DARWIN props state = Rendered out
    /\ showDisclosureArrow (toolbarDropdown out) = false
    /\ dropdownState (toolbarDropdown out) = closed
    /\ (rebaseConflict (repositoryState props) = false ->
        disabled (toolbarDropdown out) = false).
Proof.
  intros Htip Hnone.
  assert (Hexists :
            existsb (fun b => negb (isDesktopForkRemoteBranch b))
                    (allBranches (branchesState (repositoryState props))) = false).
  { destruct (existsb _ _) eqn:E; [ | reflexivity ].
    apply existsb_eligible in E. destruct E as [b [Hin Hb]].
    exfalso. exact (Hnone b Hin Hb). }
  clear Hnone. unfold rebaseConflict.
  destruct props as [[[t branches] progress0 [conflict0]] shown pr0 nudge popoverFlag].
  simpl in *. subst t.
  byOperation; rewrite ?Hexists, ?andb_false_r;
    (repeat split; try reflexivity; intros H; discriminate H).
Qed.

Lemma unborn_without_eligible_branch_witness :
  exists out,
    render false propsUnbornForkOnly initialState = Rendered out
    /\ isOpen propsUnbornForkOnly = true
    /\ dropdownState (toolbarDropdown out) = closed.
Proof.
  assert (Hnone : forall b,
             In b (allBranches (branchesState (repositoryState propsUnbornForkOnly))) ->
             ~ eligible b).
  { intros b [<- | []] Hb. discriminate Hb. }
  destruct (unborn_without_eligible_branch false propsUnbornForkOnly initialState "main"
              eq_refl Hnone) as [out [E [_ [Hclosed _]]]].
  exists out. split; [exact E | split; [reflexivity | exact Hclosed]].
Defined.

(** ** The title on a detached head *)

Lemma substring_from_start_length (n : nat) (s : string) :
  String.length (substring 0 n s) = Nat.min n (String.length s).
Proof.
  revert s. induction n as [ | n IH]; intros [ | c s]; simpl; auto.
Qed.

Lemma substring_from_start_prefix (n : nat) (s : string) :
  prefix (substring 0 n s) s = true.
Proof.
  revert s. induction n as [ | n IH]; intros [ | c s]; simpl; auto.
  destruct (ascii_dec c c) as [_ | Hne]; [apply IH | contradiction].
Qed.

Lemma substring_from_start_all (n : nat) (s : string) :
  (String.length s <= n)%nat -> substring 0 n s = s.
Proof.
  revert s. induction n as [ | n IH]; intros [ | c s]; simpl; intros H; auto.
  - inversion H.
  - f_equal. apply IH. lia.
Qed.

(** X8: on a detached head with no checkout in progress and no rebase
    conflict, the title is 'On ' followed by a prefix of the commit
    identifier, seven characters long or the whole identifier when that
    is shorter. *)
Theorem detached_title (DARWIN : bool) (props : IBranchDropdownProps)
        (state : IBranchDropdownState) (currentSha : string) :
  tip (branchesState (repositoryState props)) = Detached currentSha ->
  checkoutProgress (repositoryState props) = None ->
  rebaseConflict (repositoryState props) = false ->
  exists out shortSha,
    render DARWIN props state = Rendered out
    /\ title (toolbarDropdown out) = "On " ++ shortSha
    /\ prefix shortSha currentSha = true
    /\ String.length shortSha = Nat.min 7 (String.length currentSha)
    /\ ((String.length currentSha <= 7)%nat -> shortSha = currentSha).
Proof.
  unfold rebaseConflict. intros Htip Hprogress Hconflict.
  destruct props as [[[t branches] progress0 [conflict0]] shown pr0 nudge popoverFlag].
  simpl in *. subst t progress0.
  destruct conflict0 as [[ | rebaseTarget | ] | ]; try discriminate Hconflict;
    (eexists; exists (substr07 currentSha);
     split; [reflexivity | split; [reflexivity | ]];
     split; [apply substring_from_start_prefix | ];
     split; [apply substring_from_start_length | apply substring_from_start_all]).
Qed.

Lemma detached_title_witness :
  exists out,
    render false propsDetachedWithPullRequest initialState = Rendered out
    /\ title (toolbarDropdown out) = "On abcdef1".
Proof.
  destruct (detached_title false propsDetachedWithPullRequest initialState "abcdef1234567"
              eq_refl eq_refl eq_refl) as [out [shortSha [E [Htitle _]]]].
  exists out. split; [exact E | ].
  unfold render in E. cbn in E. injection E as <-. reflexivity.
Defined.

(** ** The percentage *)

(** The examples of double arithmetic: a hundred times 0.015 is exactly
    1.5 and rounds to 2; a hundred times 0.285 falls just below 28.5 and
    rounds to 28; a value of 10^19 prints in exponent notation. *)
Example checkout_at_half_point :
  exists out,
    render false propsAtHalfPoint initialState = Rendered out
    /\ description (toolbarDropdown out) = "Switching to branch (2%)".
Proof.
  eexists; split; reflexivity.
Qed.

Example rounding_of_double_products :
  map (fun v => numberToString (Math_round (mul v (ofZ 100))))
      [ofRatio 42 100; ofRatio 15 1000; ofRatio 285 1000; ofRatio 5 1000; ofRatio 1 1;
       ofZ (10 ^ 19); ofZ (2 ^ 60); S754_infinity false]
  = ["42"; "2"; "28"; "1"; "100"; "1e+21"; "115292150460684700000"; "Infinity"].
Proof.
  vm_compute. reflexivity.
Qed.

Local Open Scope Z_scope.

Lemma digits2_pos_bounds (p : positive) :
  2 ^ (Zpos (digits2_pos p) - 1) <= Zpos p < 2 ^ Zpos (digits2_pos p).
Proof.
  induction p as [p IH | p IH | ]; cbn [digits2_pos].
  - rewrite Pos2Z.inj_succ.
    replace (Z.succ (Zpos (digits2_pos p)) - 1)
      with (Z.succ (Zpos (digits2_pos p) - 1)) by lia.
    rewrite !Z.pow_succ_r by lia. lia.
  - rewrite Pos2Z.inj_succ.
    replace (Z.succ (Zpos (digits2_pos p)) - 1)
      with (Z.succ (Zpos (digits2_pos p) - 1)) by lia.
    rewrite !Z.pow_succ_r by lia. lia.
  - cbn. lia.
Qed.

(** One shift to the right halves the mantissa. *)
Lemma shr_1_m (r : shr_record) :
  0 <= shr_m r -> shr_m (shr_1 r) = shr_m r / 2 /\ 0 <= shr_m (shr_1 r).
Proof.
  destruct r as [m rb sb]. cbn [shr_m]. intros Hm.
  assert (H : shr_m (shr_1 {| shr_m := m; shr_r := rb; shr_s := sb |}) = Z.div2 m).
  { destruct m as [ | [p | p | ] | p]; try reflexivity. lia. }
  rewrite H, Z.div2_div. split; [reflexivity | ].
  apply Z.div_pos; lia.
Qed.

Lemma iter_pos_shr_m (p : positive) :
  forall r, 0 <= shr_m r ->
            shr_m (iter_pos shr_1 p r) = shr_m r / 2 ^ Zpos p
            /\ 0 <= shr_m (iter_pos shr_1 p r).
Proof.
  induction p as [p IH | p IH | ]; intros r Hr; cbn [iter_pos].
  - destruct (shr_1_m r Hr) as [E1 H1].
    destruct (IH _ H1) as [E2 H2].
    destruct (IH _ H2) as [E3 H3].
    split; [ | exact H3 ].
    rewrite E3, E2, E1.
    rewrite !Z.div_div by (try apply Z.pow_pos_nonneg; lia).
    f_equal.
    replace (Zpos p~1) with (1 + Zpos p + Zpos p) by lia.
    rewrite !Z.pow_add_r by lia. lia.
  - destruct (IH _ Hr) as [E2 H2].
    destruct (IH _ H2) as [E3 H3].
    split; [ | exact H3 ].
    rewrite E3, E2.
    rewrite !Z.div_div by (try apply Z.pow_pos_nonneg; lia).
    f_equal.
    replace (Zpos p~0) with (Zpos p + Zpos p) by lia.
    rewrite !Z.pow_add_r by lia. lia.
  - destruct (shr_1_m r Hr) as [E1 H1]. split; [ | exact H1 ].
    rewrite E1. reflexivity.
Qed.

Lemma shr_spec (r : shr_record) (e n : Z) :
  0 <= shr_m r ->
  shr_m (fst (shr r e n)) = shr_m r / 2 ^ Z.max 0 n
  /\ 0 <= shr_m (fst (shr r e n))
  /\ snd (shr r e n) = e + Z.max 0 n.
Proof.
  intros Hr. destruct n as [ | p | p]; cbn [shr fst snd].
  - rewrite Z.max_l by lia. rewrite Z.pow_0_r, Z.div_1_r. lia.
  - rewrite Z.max_r by lia. destruct (iter_pos_shr_m p r Hr) as [E H]. auto.
  - rewrite Z.max_l by lia. rewrite Z.pow_0_r, Z.div_1_r. lia.
Qed.

Lemma round_nearest_even_bounds (a : Z) (l : location) :
  a <= round_nearest_even a l <= a + 1.
Proof.
  destruct l as [ | [ | | ]]; cbn; try destruct (Z.even a); lia.
Qed.

(** What rounding a positive exact product yields: zero, or a positive
    double whose mantissa [b] and exponent [e2] come from the product
    by two shifts, [k1] and [k2] places, with at most one unit added in
    between. *)
Lemma binary_round_aux_shape (M : positive) (E : Z) :
  exists b e2 k1 k2 m1,
    binary_round_aux prec emax false (Zpos M) E loc_Exact
    = match b with
      | Z0 => S754_zero false
      | Zpos m =>
          if e2 <=? emax - prec then S754_finite false m e2 else S754_infinity false
      | Zneg _ => S754_nan
      end
    /\ 0 <= b /\ 0 <= k1 /\ 0 <= k2
    /\ e2 = E + k1 + k2
    /\ b = m1 / 2 ^ k2
    /\ 0 <= m1 <= Zpos M / 2 ^ k1 + 1
    /\ E + k1 = Z.max E (fexp prec emax (Zpos (digits2_pos M) + E)).
Proof.
  unfold binary_round_aux, shr_fexp.
  cbn [Zdigits2 shr_record_of_loc].
  set (n1 := fexp prec emax (Zpos (digits2_pos M) + E) - E).
  set (r0 := {| shr_m := Zpos M; shr_r := false; shr_s := false |}).
  destruct (shr_spec r0 E n1) as [Ha [Ha0 He1]]; [cbn; lia | ].
  destruct (shr r0 E n1) as [mrs1 e1]. cbn [fst snd] in *.
  set (m1 := round_nearest_even (shr_m mrs1) (loc_of_shr_record mrs1)).
  pose proof (round_nearest_even_bounds (shr_m mrs1) (loc_of_shr_record mrs1)) as Hm1.
  fold m1 in Hm1.
  set (n2 := fexp prec emax (Zdigits2 m1 + e1) - e1).
  destruct (shr_spec {| shr_m := m1; shr_r := false; shr_s := false |} e1 n2)
    as [Hb [Hb0 He2]]; [cbn; lia | ].
  destruct (shr {| shr_m := m1; shr_r := false; shr_s := false |} e1 n2) as [mrs2 e2].
  cbn [fst snd shr_m] in *.
  exists (shr_m mrs2), e2, (Z.max 0 n1), (Z.max 0 n2), m1.
  split; [reflexivity | ].
  split; [exact Hb0 | ].
  split; [lia | split; [lia | ]].
  split; [lia | ].
  split; [exact Hb | ].
  split; [unfold r0 in Ha; cbn [shr_m] in Ha; lia | ].
  unfold n1. lia.
Qed.

(** The mantissa of a double has at most 53 bits, and exactly 53 unless
    the double is subnormal. *)
Lemma canonical_bounds (m : positive) (e : Z) :
  bounded prec emax m e = true ->
  Zpos m < 2 ^ 53 /\ (-1074 < e -> 2 ^ 52 <= Zpos m).
Proof.
  unfold bounded, canonical_mantissa, fexp, emin, prec, emax.
  intros H. apply andb_true_iff in H. destruct H as [H _].
  apply Z.eqb_eq in H.
  pose proof (digits2_pos_bounds m) as [Hlow Hhigh].
  set (d := Zpos (digits2_pos m)) in *.
  assert (Hd : d <= 53) by lia.
  split.
  - apply Z.lt_le_trans with (2 ^ d); [exact Hhigh | ].
    apply Z.pow_le_mono_r; lia.
  - intros He. assert (Hd53 : d = 53) by lia.
    rewrite Hd53 in Hlow. exact Hlow.
Qed.

(** A hundred times a double below 1/200 rounds to 0: the double
    product stays below one half. *)
Lemma times100_below_half (m : positive) (e : Z) :
  bounded prec emax m e = true ->
  e < 0 ->
  Zpos m * 200 < 2 ^ (- e) ->
  Math_round (mul (S754_finite false m e) (ofZ 100)) = IntegralValue 0.
Proof.
  intros Hbounded Hneg Hsmall.
  destruct (canonical_bounds m e Hbounded) as [Hm53 Hm52].
  assert (He : e <= -60).
  { destruct (Z_le_gt_dec e (-60)) as [H | H]; [exact H | exfalso ].
    assert (H52 : 2 ^ 52 <= Zpos m) by (apply Hm52; lia).
    assert (Hpow : 2 ^ (- e) <= 2 ^ 59) by (apply Z.pow_le_mono_r; lia).
    change (2 ^ 52) with 4503599627370496 in H52.
    change (2 ^ 59) with 576460752303423488 in Hpow. lia. }
  set (t := 2 ^ (- e - 60)).
  assert (Ht : 1 <= t) by (unfold t; apply (Z.pow_le_mono_r 2 0); lia).
  assert (Hpe : 2 ^ (- e) = 2 ^ 60 * t).
  { unfold t. rewrite <- Z.pow_add_r by lia. f_equal. lia. }
  assert (Ht2 : t = 1 \/ 2 <= t).
  { destruct (Z.eq_dec e (-60)) as [-> | Hne]; [left; reflexivity | right].
    unfold t. apply (Z.pow_le_mono_r 2 1); lia. }
  assert (Hkey : 200 * Zpos m + 128 * t < 2 ^ 60 * t).
  { change (2 ^ 53) with 9007199254740992 in Hm53.
    change (2 ^ 60) with 1152921504606846976 in *.
    destruct Ht2 as [Ht1 | Ht2]; lia. }
  change (ofZ 100) with (S754_finite false 7036874417766400 (-46)).
  unfold mul. cbn [SFmul xorb].
  set (M := (m * 7036874417766400)%positive).
  set (E := e + -46).
  assert (HM : Zpos M = Zpos m * 100 * 2 ^ 46).
  { unfold M. rewrite Pos2Z.inj_mul. change (2 ^ 46) with 70368744177664. lia. }
  assert (HpE : 2 ^ (- E) = 2 ^ 46 * (2 ^ 60 * t)).
  { unfold E. rewrite <- Hpe, <- Z.pow_add_r by lia. f_equal. lia. }
  destruct (binary_round_aux_shape M E)
    as [b [e2 [k1 [k2 [m1 [Hshape [Hb0 [Hk1 [Hk2 [He2 [Hb [Hm1 Hmax]]]]]]]]]]]].
  rewrite Hshape.
  assert (Hdigits : Zpos (digits2_pos M) <= - E - 1).
  { pose proof (digits2_pos_bounds M) as [Hlow _].
    assert (Hlt : 2 ^ (Zpos (digits2_pos M) - 1) < 2 ^ (- E - 1)).
    { apply Z.le_lt_trans with (Zpos M); [exact Hlow | ].
      assert (H2 : 2 * 2 ^ (- E - 1) = 2 ^ (- E)).
      { rewrite <- Z.pow_succ_r by (unfold E; lia). f_equal. lia. }
      rewrite HpE in H2. rewrite HM.
      change (2 ^ 46) with 70368744177664 in *.
      change (2 ^ 60) with 1152921504606846976 in *. lia. }
    apply Z.pow_lt_mono_r_iff in Hlt; [lia | lia | unfold E; lia]. }
  assert (Hk1' : k1 <= - e - 8).
  { unfold fexp, emin, prec, emax in Hmax. unfold E in *. lia. }
  assert (Hm1' : 2 * m1 * 2 ^ k1 < 2 ^ (- E)).
  { assert (Hpos : 0 < 2 ^ k1) by (apply Z.pow_pos_nonneg; lia).
    assert (Hdiv : Zpos M / 2 ^ k1 * 2 ^ k1 <= Zpos M).
    { rewrite Z.mul_comm. apply Z.mul_div_le. exact Hpos. }
    assert (Hpk : 2 ^ (k1 + 1) <= 2 ^ 53 * t).
    { unfold t. rewrite <- Z.pow_add_r by lia. apply Z.pow_le_mono_r; lia. }
    rewrite Z.pow_add_r, Z.pow_1_r in Hpk by lia.
    assert (Hmul : m1 * 2 ^ k1 <= (Zpos M / 2 ^ k1 + 1) * 2 ^ k1)
      by (apply Z.mul_le_mono_nonneg_r; lia).
    rewrite HpE. clearbody M t E.
    change (2 ^ 46) with 70368744177664 in *.
    change (2 ^ 53) with 9007199254740992 in *.
    change (2 ^ 60) with 1152921504606846976 in *.
    lia. }
  destruct b as [ | mb | mb]; [reflexivity | | lia].
  assert (Hbk : Zpos mb * 2 ^ k2 <= m1).
  { rewrite Hb, Z.mul_comm. apply Z.mul_div_le. apply Z.pow_pos_nonneg; lia. }
  assert (Hpk1 : 0 < 2 ^ k1) by (apply Z.pow_pos_nonneg; lia).
  assert (Hpk2 : 0 < 2 ^ k2) by (apply Z.pow_pos_nonneg; lia).
  assert (Hlt : 2 ^ (k2 + 1 + k1) < 2 ^ (- E)).
  { rewrite !Z.pow_add_r, Z.pow_1_r by lia. nia. }
  apply Z.pow_lt_mono_r_iff in Hlt; [ | lia | unfold E; lia ].
  assert (He2neg : e2 < -1) by lia.
  replace (e2 <=? emax - prec) with true
    by (symmetry; apply Z.leb_le; unfold emax, prec; lia).
  assert (Hunit : 2 ^ (- E) = 2 ^ (- e2) * 2 ^ k2 * 2 ^ k1).
  { rewrite <- !Z.pow_add_r by lia. f_equal. lia. }
  assert (Hfinal : 2 * Zpos mb < 2 ^ (- e2)).
  { rewrite Hunit in Hm1'.
    assert (Hscaled : Zpos mb * 2 ^ k2 * 2 ^ k1 <= m1 * 2 ^ k1)
      by (apply Z.mul_le_mono_nonneg_r; lia).
    apply (Z.mul_lt_mono_pos_r (2 ^ k2 * 2 ^ k1)); [lia | lia]. }
  unfold Math_round, toQ.
  replace (0 <=? e2) with false by (symmetry; apply Z.leb_gt; lia).
  f_equal.
  unfold Qfloor, Qplus. cbn [Qnum Qden].
  assert (Hpe2 : 0 < 2 ^ (- e2)) by (apply Z.pow_pos_nonneg; lia).
  rewrite Pos2Z.inj_mul, Z2Pos.id by exact Hpe2.
  apply Z.div_small. lia.
Qed.

Local Close Scope Z_scope.

Lemma checkout_description (DARWIN : bool) (props : IBranchDropdownProps)
      (state : IBranchDropdownState) (progress : ICheckoutProgress) :
  checkoutProgress (repositoryState props) = Some progress ->
  displayable (tip (branchesState (repositoryState props))) ->
  exists out,
    render DARWIN props state = Rendered out
    /\ description (toolbarDropdown out)
       = if gt0 (value progress)
         then (if DARWIN then "Switching to Branch" else "Switching to branch")
                ++ " (" ++ numberToString (Math_round (mul (value progress) (ofZ 100)))
                ++ "%)"
         else if DARWIN then "Switching to Branch" else "Switching to branch".
Proof.
  intros Hprogress Htip.
  byTip props; (eexists; split; reflexivity).
Qed.

(** X11: a checkout that has started but is below half a percent shows
    '(0%)' after the description, where one that has not started shows
    no percentage: for every double above 0 and below 1/200. *)
Theorem barely_started_checkout (DARWIN : bool) (props : IBranchDropdownProps)
        (state : IBranchDropdownState) (progress : ICheckoutProgress) :
  checkoutProgress (repositoryState props) = Some progress ->
  displayable (tip (branchesState (repositoryState props))) ->
  valid_binary prec emax (value progress) = true ->
  0 < toQ (value progress) ->
  toQ (value progress) < 1 # 200 ->
  exists out,
    render DARWIN props state = Rendered out
    /\ description (toolbarDropdown out)
       = (if DARWIN then "Switching to Branch" else "Switching to branch") ++ " (0%)".
Proof.
  intros Hprogress Htip Hvalid Hpositive Hsmall.
  destruct (checkout_description DARWIN props state progress Hprogress Htip)
    as [out [E Hdescription]].
  exists out. split; [exact E | ].
  rewrite Hdescription. clear Hdescription E Hprogress Htip.
  destruct (value progress) as [s | s | | s m e];
    try (exfalso; revert Hpositive; cbn; discriminate).
  destruct s.
  - exfalso. revert Hpositive. unfold toQ.
    destruct (0 <=? e)%Z; unfold Qlt; cbn [Qnum Qden inject_Z]; intros H.
    + assert (Hpow : (0 <= 2 ^ e)%Z) by (apply Z.pow_nonneg; lia). nia.
    + lia.
  - rewrite gt0_greaterThanZero.
    cbn [valid_binary] in Hvalid.
    assert (He : (e < 0)%Z /\ (Zpos m * 200 < 2 ^ (- e))%Z).
    { revert Hsmall. unfold toQ.
      destruct (0 <=? e)%Z eqn:Esign; unfold Qlt; cbn [Qnum Qden inject_Z]; intros H.
      - exfalso. apply Z.leb_le in Esign.
        assert (Hpow : (0 < 2 ^ e)%Z) by (apply Z.pow_pos_nonneg; lia). nia.
      - apply Z.leb_gt in Esign. split; [exact Esign | ].
        rewrite Z2Pos.id in H by (apply Z.pow_pos_nonneg; lia). lia. }
    destruct He as [He Hm].
    rewrite (times100_below_half m e Hvalid He Hm).
    destruct DARWIN; reflexivity.
Qed.

Lemma barely_started_checkout_witness :
  exists out,
    render false propsJustStarted initialState = Rendered out
    /\ description (toolbarDropdown out) = "Switching to branch (0%)".
Proof.
  assert (H0 : valid_binary prec emax (value checkoutJustStarted) = true)
    by (vm_compute; reflexivity).
  assert (H1 : 0 < toQ (value checkoutJustStarted)) by (vm_compute; reflexivity).
  assert (H2 : toQ (value checkoutJustStarted) < 1 # 200) by (vm_compute; reflexivity).
  exact (barely_started_checkout false propsJustStarted initialState checkoutJustStarted
           eq_refl I H0 H1 H2).
Defined.

Lemma showInt_reads_back (n : Z) :
  option_map Z.of_int (NilZero.int_of_string (showInt n)) = Some n.
Proof.
  unfold showInt. rewrite NilZero.isi.
  - simpl. f_equal. apply DecimalZ.of_to.
  - destruct n as [ | p | p]; simpl; intros H; try discriminate H.
    injection H as H. exact (Unsigned.to_uint_nonnil p H).
  - destruct n as [ | p | p]; simpl; intros H; try discriminate H.
    injection H as H. exact (Unsigned.to_uint_nonnil p H).
Qed.

(** X12: during a checkout whose value is above zero, when a hundred
    times the value, in double arithmetic, rounds to an integer of
    magnitude at most 2^53, the description ends in a parenthesised
    decimal numeral and a percent sign, and the numeral reads back as
    that integer. *)
Theorem percentage_reads_back (DARWIN : bool) (props : IBranchDropdownProps)
        (state : IBranchDropdownState) (progress : ICheckoutProgress) (n : Z) :
  checkoutProgress (repositoryState props) = Some progress ->
  displayable (tip (branchesState (repositoryState props))) ->
  greaterThanZero (value progress) ->
  Math_round (mul (value progress) (ofZ 100)) = IntegralValue n ->
  (Z.abs n <= 2 ^ 53)%Z ->
  exists out digits,
    render DARWIN props state = Rendered out
    /\ description (toolbarDropdown out)
       = (if DARWIN then "Switching to Branch" else "Switching to branch")
           ++ " (" ++ digits ++ "%)"
    /\ option_map Z.of_int (NilZero.int_of_string digits) = Some n.
Proof.
  intros Hprogress Htip Hpositive Hround Hbound.
  destruct (checkout_description DARWIN props state progress Hprogress Htip)
    as [out [E Hdescription]].
  exists out, (showInt n).
  split; [exact E | split; [ | apply showInt_reads_back ]].
  rewrite Hdescription, Hround, gt0_greaterThanZero.
  unfold numberToString, integerToString.
  apply Z.leb_le in Hbound. rewrite Hbound.
  destruct (value progress) as [s | s | | s m e]; try destruct s;
    try contradiction; reflexivity.
Qed.

Lemma percentage_reads_back_witness :
  exists out digits,
    render false propsAtHalfPoint initialState = Rendered out
    /\ description (toolbarDropdown out) = "Switching to branch" ++ " (" ++ digits ++ "%)"
    /\ option_map Z.of_int (NilZero.int_of_string digits) = Some 2%Z.
Proof.
  assert (H1 : Math_round (mul (value checkoutAtHalfPoint) (ofZ 100)) = IntegralValue 2)
    by (vm_compute; reflexivity).
  assert (H2 : (Z.abs 2 <= 2 ^ 53)%Z) by (vm_compute; discriminate).
  exact (percentage_reads_back false propsAtHalfPoint initialState checkoutAtHalfPoint 2
           eq_refl I I H1 H2).
Defined.

(** ** The badge, the popover and the foldout *)

(** X13: for a tip that is displayed, the pull request badge is put
    into the button exactly when a current pull request exists, whatever
    operation is in flight, and it carries that pull request's number
    and base repository; a popover is never rendered without the badge,
    and it names the same number and repository as the badge. *)
Theorem badge_and_popover_agree (DARWIN : bool) (props : IBranchDropdownProps)
        (state : IBranchDropdownState) :
  displayable (tip (branchesState (repositoryState props))) ->
  exists out,
    render DARWIN props state = Rendered out
    /\ (children (toolbarDropdown out) = None <-> currentPullRequest props = None)
    /\ (forall badge,
           children (toolbarDropdown out) = Some badge ->
           exists pr, currentPullRequest props = Some pr
                      /\ badgeNumber badge = pullRequestNumber pr
                      /\ badgeRepository badge = baseGitHubRepository pr)
    /\ (forall p,
           popover out = Some p ->
           exists badge, children (toolbarDropdown out) = Some badge
                         /\ prNumber p = badgeNumber badge
                         /\ popoverRepository p = badgeRepository badge).
Proof.
  intros Htip.
  destruct (proj2 (display_rendered_iff DARWIN props) Htip) as [l E].
  unfold render. rewrite E. cbn [bindRender].
  eexists; split; [reflexivity | ].
  cbn [toolbarDropdown children popover].
  unfold renderPullRequestInfo, renderPopover.
  destruct (currentPullRequest props) as [pr | ];
    destruct (showCIStatusPopover props);
    (split; [split; intros H; try discriminate H; reflexivity | ]);
    (split;
     [ intros badge H; try discriminate H; injection H as <-;
       exists pr; repeat split
     | intros p H; try discriminate H; injection H as <-;
       eexists; repeat split ]).
Qed.

Lemma badge_and_popover_agree_witness :
  exists out,
    render false propsForkPullRequest initialState = Rendered out
    /\ exists p badge,
         popover out = Some p
         /\ children (toolbarDropdown out) = Some badge
         /\ prNumber p = badgeNumber badge.
Proof.
  destruct (badge_and_popover_agree false propsForkPullRequest initialState I)
    as [out [E [_ [_ Hpopover]]]].
  exists out. split; [exact E | ].
  assert (Hp : exists p, popover out = Some p).
  { unfold render in E. cbn in E. injection E as <-. eexists; reflexivity. }
  destruct Hp as [p Hp].
  destruct (Hpopover p Hp) as [badge [Hbadge [Hnumber _]]].
  exists p, badge. split; [exact Hp | split; [exact Hbadge | exact Hnumber]].
Defined.

(** X14: the position the badge reports places the popover and does
    nothing else: the button is the same and a popover is present or
    absent alike whatever the stored position; a rendered popover gets
    the position stored last, and 0 before any was reported. *)
Theorem badge_position_only_places_popover (DARWIN : bool) (props : IBranchDropdownProps)
        (state : IBranchDropdownState) (out : Rendering) :
  render DARWIN props state = Rendered out ->
  (forall state',
      exists out', render DARWIN props state' = Rendered out'
                   /\ toolbarDropdown out' = toolbarDropdown out
                   /\ (popover out' = None <-> popover out = None))
  /\ (forall first last,
         exists out',
           render DARWIN props
                  (updateBadgeBottomPosition last (updateBadgeBottomPosition first state))
           = Rendered out'
           /\ forall p, popover out' = Some p -> popoverBadgeBottom p = last)
  /\ (exists out', render DARWIN props initialState = Rendered out'
                   /\ forall p, popover out' = Some p -> popoverBadgeBottom p = 0).
Proof.
  unfold render.
  destruct (display DARWIN props) as [l | | m]; cbn [bindRender]; try discriminate.
  intros E. injection E as <-.
  cbn [toolbarDropdown popover]. unfold renderPopover.
  split; [ | split ].
  - intros state'. eexists; split; [reflexivity | ].
    cbn [toolbarDropdown popover]. split; [reflexivity | ].
    destruct (showCIStatusPopover props), (currentPullRequest props);
      split; intros H; try discriminate H; reflexivity.
  - intros first last. eexists; split; [reflexivity | ].
    cbn [popover]. intros p.
    destruct (showCIStatusPopover props), (currentPullRequest props);
      intros H; try discriminate H. injection H as <-. reflexivity.
  - eexists; split; [reflexivity | ].
    cbn [popover]. intros p.
    destruct (showCIStatusPopover props), (currentPullRequest props);
      intros H; try discriminate H. injection H as <-. reflexivity.
Qed.

Lemma badge_position_only_places_popover_witness :
  exists out,
    render false propsForkPullRequest
           (updateBadgeBottomPosition (57 # 1) (updateBadgeBottomPosition (12 # 1) initialState))
    = Rendered out
    /\ forall p, popover out = Some p -> popoverBadgeBottom p = 57 # 1.
Proof.
  assert (E : exists out, render false propsForkPullRequest initialState = Rendered out).
  { eexists; reflexivity. }
  destruct E as [out E].
  exact (proj1 (proj2 (badge_position_only_places_popover false propsForkPullRequest
                         initialState out E)) (12 # 1) (57 # 1)).
Defined.

(** X15: the foldout is given the tip's branch as current branch exactly
    on a valid tip, and whenever the drop-down is drawn open the title
    of the button is the name of that current branch. *)
Theorem foldout_current_branch (DARWIN : bool) (props : IBranchDropdownProps)
        (state : IBranchDropdownState) (more : FoldoutInputs) (out : Rendering) :
  render DARWIN props state = Rendered out ->
  (forall branch,
      foldoutCurrentBranch (renderBranchFoldout props more) = Some branch
      <-> tip (branchesState (repositoryState props)) = Valid branch)
  /\ (dropdownState (toolbarDropdown out) = open ->
      forall branch,
        foldoutCurrentBranch (renderBranchFoldout props more) = Some branch ->
        title (toolbarDropdown out) = name branch).
Proof.
  intros E. split.
  - intros b. unfold renderBranchFoldout. cbn [foldoutCurrentBranch].
    destruct (tip (branchesState (repositoryState props)));
      split; intros H; try discriminate H; congruence.
  - revert E. unfold renderBranchFoldout. cbn [foldoutCurrentBranch].
    destruct props as [[[t branches] progress0 [conflict0]] shown pr0 nudge popoverFlag].
    destruct t; cbn; intros E; try discriminate E;
      intros Hopen b Hb; try discriminate Hb;
      injection Hb as <-; injection E as <-;
      destruct progress0 as [running | ];
      [ | destruct conflict0 as [[ | rebaseTarget | ] | ] ];
      cbn in *; rewrite ?andb_false_r, ?andb_true_r in Hopen;
      try discriminate Hopen; reflexivity.
Qed.

Lemma foldout_current_branch_witness :
  exists out,
    render false propsPickerOpen initialState = Rendered out
    /\ dropdownState (toolbarDropdown out) = open
    /\ title (toolbarDropdown out) = "main".
Proof.
  assert (E : exists out, render false propsPickerOpen initialState = Rendered out
                          /\ dropdownState (toolbarDropdown out) = open).
  { eexists; split; reflexivity. }
  destruct E as [out [E Hopen]].
  exists out. split; [exact E | split; [exact Hopen | ]].
  exact (proj2 (foldout_current_branch false propsPickerOpen initialState noFoldoutInputs
                  out E) Hopen mainBranch eq_refl).
Defined.

(** ** More on closing the popover *)

(** X16: a pointer event whose target is null, is not a node, or is a
    node outside the document always closes the popover. *)
Theorem closePopover_other_targets (document : DomNode) (props : IBranchDropdownProps)
        (event : MouseEvent) :
  target event = None
  \/ target event = Some NotANode
  \/ target event = Some NodeOutsideDocument ->
  closePopover document props (Some event) = [SetShowCIStatusPopover false].
Proof.
  destruct event as [[[r | | ] | ]]; cbn [target];
    intros [H | [H | H]]; try discriminate H;
    unfold closePopover, elemContains; cbn [target instanceofNode andb];
    destruct (getElementById document "pr-badge");
    destruct (getElementById document "rerun-check-runs"); reflexivity.
Qed.

Lemma closePopover_other_targets_witness :
  closePopover page propsForkPullRequest (Some {| target := None |})
  = [SetShowCIStatusPopover false].
Proof.
  apply closePopover_other_targets. left. reflexivity.
Defined.

Lemma inChildren_found (wanted : string) (here : NodeRef) (nodes : list DomNode)
      (k : nat) (r : NodeRef) :
  (fix inChildren (k : nat) (nodes : list DomNode) : option NodeRef :=
     match nodes with
     | [] => None
     | child :: rest =>
         match findById wanted (k :: here) child with
         | Some found => Some found
         | None => inChildren (S k) rest
         end
     end) k nodes = Some r ->
  exists i child, nth_error nodes i = Some child
                  /\ findById wanted ((k + i)%nat :: here) child = Some r.
Proof.
  revert k. induction nodes as [ | child rest IH]; intros k H; [discriminate H | ].
  destruct (findById wanted (k :: here) child) as [found | ] eqn:E.
  - exists 0%nat, child. rewrite Nat.add_0_r. split; [reflexivity | congruence].
  - destruct (IH (S k) H) as [i [c [Hnth Hfound]]].
    exists (S i), c. split; [exact Hnth | ].
    rewrite Nat.add_succ_r. exact Hfound.
Qed.

(** What [findById] returns refers to an element carrying the wanted
    id. *)
Lemma findById_sound (wanted : string) (n : DomNode) :
  forall here r,
    findById wanted here n = Some r ->
    exists path found,
      r = (rev path ++ here)%list
      /\ descend n path = Some found
      /\ idOf found = wanted.
Proof.
  induction n as [id childNodes IH] using DomNode_induction.
  intros here r H. cbn [findById] in H.
  destruct (String.eqb id wanted) eqn:Eid.
  - injection H as <-. exists [], (Element id childNodes).
    split; [reflexivity | split; [reflexivity | ]].
    apply String.eqb_eq. exact Eid.
  - destruct (inChildren_found wanted here childNodes 0 r H) as [i [child [Hnth Hfound]]].
    rewrite Forall_forall in IH.
    destruct (IH child (nth_error_In _ _ Hnth) _ _ Hfound) as [path [found [Hr [Hd Hid]]]].
    exists (i :: path), found. split; [ | split; [ | exact Hid ]].
    + rewrite Hr. cbn [rev]. rewrite <- app_assoc. reflexivity.
    + cbn [descend]. rewrite Hnth. exact Hd.
Qed.

Lemma getElementById_sound (document : DomNode) (id : string) (r : NodeRef) :
  getElementById document id = Some r ->
  exists found, nodeAt document r = Some found /\ idOf found = id.
Proof.
  intros H. destruct (findById_sound id document [] r H) as [path [found [Hr [Hd Hid]]]].
  exists found. split; [ | exact Hid ].
  unfold nodeAt. rewrite Hr, app_nil_r, rev_involutive. exact Hd.
Qed.

(** X17: in a document none of whose elements carries the id 'pr-badge'
    or 'rerun-check-runs', every pointer event closes the popover. *)
Theorem closePopover_without_badge_and_dialog (document : DomNode)
        (props : IBranchDropdownProps) :
  (forall r n, nodeAt document r = Some n ->
               idOf n <> "pr-badge" /\ idOf n <> "rerun-check-runs") ->
  forall event,
    closePopover document props (Some event) = [SetShowCIStatusPopover false].
Proof.
  intros Hnone event.
  assert (Hbadge : getElementById document "pr-badge" = None).
  { destruct (getElementById document "pr-badge") as [r | ] eqn:E; [ | reflexivity ].
    destruct (getElementById_sound _ _ _ E) as [n [Hn Hid]].
    destruct (Hnone r n Hn) as [H _]. contradiction. }
  assert (Hdialog : getElementById document "rerun-check-runs" = None).
  { destruct (getElementById document "rerun-check-runs") as [r | ] eqn:E; [ | reflexivity ].
    destruct (getElementById_sound _ _ _ E) as [n [Hn Hid]].
    destruct (Hnone r n Hn) as [_ H]. contradiction. }
  unfold closePopover. rewrite Hbadge, Hdialog.
  destruct (target event) as [[r | | ] | ]; reflexivity.
Qed.

Lemma closePopover_without_badge_and_dialog_witness :
  closePopover barePage propsIdle (Some (clickOn listRow))
  = [SetShowCIStatusPopover false].
Proof.
  apply closePopover_without_badge_and_dialog.
  intros r n. unfold nodeAt. generalize (rev r). intros path.
  cbn.
  repeat match goal with
         | |- Some _ = Some _ -> _ =>
             let H := fresh in intros H; injection H as <-; split; discriminate
         | |- None = Some _ -> _ => let H := fresh in intros H; discriminate H
         | |- context [nth_error _ ?k] => destruct k; cbn
         | |- context [descend _ ?p] => destruct p; cbn
         | |- context [match ?p with [] => _ | _ :: _ => _ end] => destruct p; cbn
         end.
Defined.

(** ** Who asks for what *)

(** X18: the popover is asked to be shown only by a click on the badge
    while the popover is hidden, and the handler then makes exactly two
    calls: first the branch foldout is asked to be closed, then the
    popover to be shown. No other handler asks for the foldout to be
    closed through the dispatcher. *)
Theorem only_badge_click_shows_popover (s : Snapshot) (props : IBranchDropdownProps)
        (e : UiEvent) :
  In (SetShowCIStatusPopover true) (handlerCalls s props e)
  \/ In (CloseFoldout FoldoutType.Branch) (handlerCalls s props e) ->
  e = BadgeClick
  /\ showCIStatusPopover props = false
  /\ handlerCalls s props e
     = [CloseFoldout FoldoutType.Branch; SetShowCIStatusPopover true].
Proof.
  destruct e as [request | | | event]; cbn [handlerCalls].
  - unfold onDropDownStateChanged.
    destruct request, (checkoutProgress (repositoryState props));
      cbn; intuition discriminate.
  - unfold onMouseEnter.
    destruct (isDragOfTypeInProgress (snapDragAndDropManager s) Commit);
      cbn; intuition discriminate.
  - unfold onBadgeClick, togglePopover.
    destruct (showCIStatusPopover props); cbn; intuition discriminate.
  - destruct (closePopover_calls (snapDocument s) props event) as [-> | ->];
      cbn; intuition discriminate.
Qed.

Lemma only_badge_click_shows_popover_witness :
  handlerCalls snapshotIdle (propsOf snapshotIdle allClosed) BadgeClick
  = [CloseFoldout FoldoutType.Branch; SetShowCIStatusPopover true].
Proof.
  apply (only_badge_click_shows_popover snapshotIdle (propsOf snapshotIdle allClosed)
                                        BadgeClick).
  left. cbn. right; left; reflexivity.
Defined.

(** X19: the branch foldout is asked to be shown, through the host's
    callback or through the dispatcher, only by an open request while
    no checkout is in progress or by a pointer-enter during a commit
    drag; and the drag-and-drop manager is notified only by such a
    pointer-enter, with the zone 'branch-button'. *)
Theorem who_opens_the_picker (s : Snapshot) (props : IBranchDropdownProps) (e : UiEvent) :
  (In (PropsOnDropDownStateChanged open) (handlerCalls s props e) ->
   e = DropdownRequest open /\ checkoutProgress (repositoryState props) = None)
  /\ (In (ShowFoldout FoldoutType.Branch) (handlerCalls s props e) ->
      e = MouseEnter
      /\ isDragOfTypeInProgress (snapDragAndDropManager s) Commit = true)
  /\ (forall zone,
         In (EmitEnterDragZone zone) (handlerCalls s props e) ->
         e = MouseEnter
         /\ isDragOfTypeInProgress (snapDragAndDropManager s) Commit = true
         /\ zone = "branch-button").
Proof.
  destruct e as [request | | | event]; cbn [handlerCalls].
  - unfold onDropDownStateChanged.
    destruct request, (checkoutProgress (repositoryState props));
      cbn; repeat split; intros; intuition discriminate.
  - unfold onMouseEnter.
    destruct (isDragOfTypeInProgress (snapDragAndDropManager s) Commit);
      cbn; repeat split; intros; try intuition discriminate.
    match goal with
    | H : _ \/ _ |- _ => destruct H as [H | [H | []]]; [ | discriminate H ];
                         injection H as <-; reflexivity
    end.
  - unfold onBadgeClick, togglePopover.
    destruct (showCIStatusPopover props);
      cbn; repeat split; intros; intuition discriminate.
  - destruct (closePopover_calls (snapDocument s) props event) as [-> | ->];
      cbn; repeat split; intros; intuition discriminate.
Qed.

Lemma who_opens_the_picker_witness :
  isDragOfTypeInProgress (snapDragAndDropManager snapshotDragging) Commit = true.
Proof.
  apply (proj1 (proj2 (who_opens_the_picker snapshotDragging
                         (propsOf snapshotDragging allClosed) MouseEnter))).
  cbn. right; left; reflexivity.
Defined.

(** ** Runs of events *)

Lemma closePopover_inside_badge (document : DomNode) (props : IBranchDropdownProps)
      (badge : NodeRef) (below : list nat) :
  getElementById document "pr-badge" = Some badge ->
  closePopover document props (Some (clickOn (below ++ badge)%list)) = [].
Proof.
  intros Hbadge. unfold closePopover. rewrite Hbadge.
  cbn [clickOn target instanceofNode elemContains andb].
  rewrite (proj2 (contains_inSubtree badge (below ++ badge)%list)).
  - reflexivity.
  - exists below. reflexivity.
Qed.

(** X20: a click on the badge, or on anything inside it, reaches both
    the badge's click handler and the popover's outside-click handler;
    whichever runs first, the popover flag ends up flipped exactly once:
    the outside-click handler leaves it alone and the toggle flips it. *)
Theorem badge_click_toggles_once (s : Snapshot) (v : OverlayVisibility)
        (badge : NodeRef) (below : list nat) :
  getElementById (snapDocument s) "pr-badge" = Some badge ->
  popoverOpen
    (step (step v (s, PopoverClose (Some (clickOn (below ++ badge)%list)))) (s, BadgeClick))
  = negb (popoverOpen v)
  /\ popoverOpen
       (step (step v (s, BadgeClick)) (s, PopoverClose (Some (clickOn (below ++ badge)%list))))
     = negb (popoverOpen v).
Proof.
  intros Hbadge. unfold step. cbn [fst snd handlerCalls].
  rewrite !(closePopover_inside_badge _ _ _ _ Hbadge).
  destruct v as [picker [ | ]]; split; reflexivity.
Qed.

Lemma badge_click_toggles_once_witness :
  popoverOpen
    (step (step allClosed (snapshotIdle, PopoverClose (Some (clickOn badgeLabel))))
          (snapshotIdle, BadgeClick))
  = true.
Proof.
  exact (proj1 (badge_click_toggles_once snapshotIdle allClosed [0; 0]%nat [0%nat] eq_refl)).
Defined.

Lemma popover_stays_hidden (v : OverlayVisibility) (se : Snapshot * UiEvent) :
  popoverOpen v = false ->
  isBadgeClick (snd se) = false ->
  popoverOpen (step v se) = false.
Proof.
  destruct se as [s e]. intros Hv He. unfold step. cbn [fst snd].
  destruct e as [request | | | event]; cbn [handlerCalls]; try discriminate He.
  - unfold onDropDownStateChanged.
    destruct request, (checkoutProgress (repositoryState (propsOf s v))); exact Hv.
  - unfold onMouseEnter.
    destruct (isDragOfTypeInProgress (snapDragAndDropManager s) Commit); exact Hv.
  - destruct (closePopover_calls (snapDocument s) (propsOf s v) event) as [-> | ->];
      [exact Hv | reflexivity].
Qed.

(** X21: with the host carrying out the calls, a hidden popover stays
    hidden through any run of events that contains no click on the
    badge. *)
Theorem popover_hidden_without_badge_click (events : list (Snapshot * UiEvent))
        (v : OverlayVisibility) :
  popoverOpen v = false ->
  forallb (fun se => negb (isBadgeClick (snd se))) events = true ->
  popoverOpen (run v events) = false.
Proof.
  revert v. induction events as [ | se events IH]; intros v Hv Hall.
  - exact Hv.
  - cbn [forallb] in Hall. apply andb_true_iff in Hall. destruct Hall as [Hse Hall].
    cbn [run fold_left]. apply IH; [ | exact Hall ].
    apply popover_stays_hidden; [exact Hv | ].
    now apply negb_true_iff.
Qed.

Lemma popover_hidden_without_badge_click_witness :
  popoverOpen
    (run allClosed [(snapshotDragging, MouseEnter);
                    (snapshotDragging, DropdownRequest open);
                    (snapshotDragging, PopoverClose None)])
  = false.
Proof.
  apply popover_hidden_without_badge_click; reflexivity.
Defined.

Lemma exclusion_kept (v : OverlayVisibility) (se : Snapshot * UiEvent) :
  atMostOne v = true ->
  leavesPickerClosed se = true ->
  atMostOne (step v se) = true.
Proof.
  destruct se as [s e]. intros Hv He. unfold step, leavesPickerClosed in *.
  cbn [fst snd] in *.
  destruct e as [request | | | event]; cbn [handlerCalls].
  - unfold onDropDownStateChanged. cbn [propsOf repositoryState].
    destruct request.
    + destruct (checkoutProgress (snapRepositoryState s)); [exact Hv | discriminate He].
    + reflexivity.
  - unfold onMouseEnter.
    destruct (isDragOfTypeInProgress (snapDragAndDropManager s) Commit);
      [discriminate He | exact Hv].
  - destruct v as [[ | ] [ | ]]; reflexivity.
  - destruct (closePopover_calls (snapDocument s) (propsOf s v) event) as [-> | ->].
    + exact Hv.
    + unfold atMostOne. cbn. rewrite andb_false_r. reflexivity.
Qed.

(** X22: with the host carrying out the calls, at most one of the two
    surfaces is shown throughout any run of events in which every open
    request arrives during a checkout and no pointer-enter happens
    during a commit drag: badge clicks, popover closings and close
    requests never bring about both. *)
Theorem exclusion_without_picker_opening (events : list (Snapshot * UiEvent))
        (v : OverlayVisibility) :
  atMostOne v = true ->
  forallb leavesPickerClosed events = true ->
  atMostOne (run v events) = true.
Proof.
  revert v. induction events as [ | se events IH]; intros v Hv Hall.
  - exact Hv.
  - cbn [forallb] in Hall. apply andb_true_iff in Hall. destruct Hall as [Hse Hall].
    cbn [run fold_left]. apply IH; [ | exact Hall ].
    apply exclusion_kept; assumption.
Qed.

Lemma exclusion_without_picker_opening_witness :
  atMostOne
    (run allClosed [(snapshotIdle, BadgeClick);
                    (snapshotIdle, MouseEnter);
                    (snapshotIdle, PopoverClose (Some (clickOn listRow)));
                    (snapshotIdle, DropdownRequest closed)])
  = true.
Proof.
  apply exclusion_without_picker_opening; reflexivity.
Defined.

Lemma picker_stays_closed (v : OverlayVisibility) (se : Snapshot * UiEvent) :
  pickerOpen v = false ->
  leavesPickerClosed se = true ->
  pickerOpen (step v se) = false.
Proof.
  destruct se as [s e]. intros Hv He. unfold step, leavesPickerClosed in *.
  cbn [fst snd] in *.
  destruct e as [request | | | event]; cbn [handlerCalls].
  - unfold onDropDownStateChanged. cbn [propsOf repositoryState].
    destruct request.
    + destruct (checkoutProgress (snapRepositoryState s)); [exact Hv | discriminate He].
    + reflexivity.
  - unfold onMouseEnter.
    destruct (isDragOfTypeInProgress (snapDragAndDropManager s) Commit);
      [discriminate He | exact Hv].
  - destruct v as [picker [ | ]]; cbn in *; [exact Hv | reflexivity].
  - destruct (closePopover_calls (snapDocument s) (propsOf s v) event) as [-> | ->];
      exact Hv.
Qed.

(** X23: with the host carrying out the calls, a closed branch foldout
    stays closed through any run of events in which every open request
    arrives during a checkout and no pointer-enter happens during a
    commit drag; nothing the popover does opens it. *)
Theorem picker_closed_without_opening (events : list (Snapshot * UiEvent))
        (v : OverlayVisibility) :
  pickerOpen v = false ->
  forallb leavesPickerClosed events = true ->
  pickerOpen (run v events) = false.
Proof.
  revert v. induction events as [ | se events IH]; intros v Hv Hall.
  - exact Hv.
  - cbn [forallb] in Hall. apply andb_true_iff in Hall. destruct Hall as [Hse Hall].
    cbn [run fold_left]. apply IH; [ | exact Hall ].
    apply picker_stays_closed; assumption.
Qed.

Lemma picker_closed_without_opening_witness :
  pickerOpen
    (run allClosed [(snapshotIdle, BadgeClick);
                    (snapshotIdle, BadgeClick);
                    (snapshotIdle, MouseEnter);
                    (snapshotIdle, PopoverClose None)])
  = false.
Proof.
  apply picker_closed_without_opening; reflexivity.
Defined.

(** ** Both surfaces at once *)

(** X24: [render] does not keep the two surfaces apart: on a valid or
    detached tip with no checkout in progress and no rebase conflict,
    when the host sets both flags and a current pull request exists,
    the drop-down is drawn open and the popover is rendered next to
    it. *)
Theorem render_draws_both (DARWIN : bool) (props : IBranchDropdownProps)
        (state : IBranchDropdownState) (pr : PullRequest) :
  (exists branch, tip (branchesState (repositoryState props)) = Valid branch)
  \/ (exists currentSha, tip (branchesState (repositoryState props)) = Detached currentSha) ->
  checkoutProgress (repositoryState props) = None ->
  rebaseConflict (repositoryState props) = false ->
  isOpen props = true ->
  showCIStatusPopover props = true ->
  currentPullRequest props = Some pr ->
  exists out p,
    render DARWIN props state = Rendered out
    /\ dropdownState (toolbarDropdown out) = open
    /\ popover out = Some p
    /\ prNumber p = pullRequestNumber pr.
Proof.
  unfold rebaseConflict. intros Htip Hprogress Hconflict Hopen Hshow Hpr.
  destruct props as [[[t branches] progress0 [conflict0]] shown pr0 nudge popoverFlag].
  simpl in *. subst.
  destruct Htip as [[branch ->] | [currentSha ->]];
    (destruct conflict0 as [[ | rebaseTarget | ] | ]; try discriminate Hconflict);
    (eexists; eexists; split; [reflexivity | repeat split]).
Qed.

Lemma render_draws_both_witness :
  exists out p,
    render false (propsWith (repoWith (Valid forkBranch) None None)
                            (Some examplePullRequest) true true) initialState
    = Rendered out
    /\ dropdownState (toolbarDropdown out) = open
    /\ popover out = Some p
    /\ prNumber p = 12%Z.
Proof.
  exact (render_draws_both false
           (propsWith (repoWith (Valid forkBranch) None None)
                      (Some examplePullRequest) true true)
           initialState examplePullRequest
           (or_introl (ex_intro _ forkBranch eq_refl))
           eq_refl eq_refl eq_refl eq_refl eq_refl).
Defined.
